(** * BMI calculator: the calculator core and its record store

    A shallow embedding of [BMICalculator] from [bmi_calculator.py] and of the
    part of [BMICalculatorGUI.calculate_bmi_gui] that creates records.

    Python floats are IEEE-754 binary64 numbers and are modelled by Rocq's
    primitive [float]; Python exceptions are modelled by the [result] type;
    the SQLite file is modelled by a [world] that holds the [bmi_records]
    table together with the faults the driver is going to report. *)

From Stdlib Require Import ZArith Floats Bool String Ascii List Lia.
From Stdlib Require Import Sorted Permutation.
Import ListNotations.

Set Warnings "-inexact-float".

(** ** Python values and exceptions *)

(** The values that flow through the calculator: the text of an entry field,
    a float, and [None]. *)
Inductive value : Type :=
| PyNone
| PyStr (s : string)
| PyFloat (f : float).

(** The subclasses of [sqlite3.Error] the driver raises. *)
Inductive sqlite_error : Type :=
| OperationalError
| IntegrityError
| DatabaseError.

Inductive exn : Type :=
| ValueError
| ZeroDivisionError
| OverflowError
| TypeError
| Sqlite3Error (e : sqlite_error).

(** The outcome of evaluating a Python expression. *)
Inductive result (A : Type) : Type :=
| Return (a : A)
| Raise (e : exn).

Arguments Return {A} a.
Arguments Raise {A} e.

Definition bind {A B : Type} (r : result A) (k : A -> result B) : result B :=
  match r with
  | Return a => k a
  | Raise e => Raise e
  end.

Declare Scope py_scope.
Delimit Scope py_scope with py.
Notation "x <- r ;; k" := (bind r (fun x => k))
  (at level 61, r at next level, right associativity) : py_scope.

(** ** The runtime the program runs on

    Three functions belong to the Python runtime, to SQLite and to the C
    library, not to the program: [float(s)] for a [str] ([None] stands for
    [ValueError]); the conversion SQLite applies to a text stored in a column
    of REAL affinity ([Some r] when the text is a well-formed numeric
    literal); and [pow(x, 2.0)] of the C library, which [x ** 2] calls and
    which need not be the correctly rounded square.  The development is
    parametric in the three.  Of [pow] it takes one fact for granted: far
    below the overflow range the result is finite. *)
Class Runtime : Type := {
  float_of_str : string -> option float;
  sqlite_real_of_text : string -> option float;
  libm_pow_2 : float -> float;
  libm_pow_2_finite :
    forall x, (abs x <=? 1e100)%float = true -> is_infinity (libm_pow_2 x) = false
}.

(** ** Float operations of the interpreter *)

Module PyFloatOps.

(** [x ** 2] for a float [x] ([float_pow] of CPython): NaN, the infinities,
    zero and plus or minus one are answered directly; otherwise the C library
    computes [pow(|x|, 2.0)], an infinite result raises [OverflowError], and a
    result that underflowed is returned as it is. *)
Definition float_pow_2 {rt : Runtime} (x : float) : result float :=
  if is_nan x then Return x
  else if is_infinity x then Return infinity
  else if (x =? 0)%float then Return 0%float
  else if (abs x =? 1)%float then Return 1%float
  else
    let r := libm_pow_2 (abs x) in
    if is_infinity r then Raise OverflowError else Return r.

(** [a / b] for floats: a zero divisor raises, everything else is the IEEE
    quotient. *)
Definition float_truediv (a b : float) : result float :=
  if (b =? 0)%float then Raise ZeroDivisionError else Return (a / b)%float.

(** Nearest integer to [n / d], ties to even; [0 <= n] and [0 < d]. *)
Definition round_half_even (n d : Z) : Z :=
  let q := (n / d)%Z in
  match (2 * (n mod d) ?= d)%Z with
  | Lt => q
  | Gt => (q + 1)%Z
  | Eq => if Z.even q then q else (q + 1)%Z
  end.

(** The binary64 number nearest to [(-1)^s * n / d], for [0 <= n], [0 < d]. *)
Definition nearest_float (s : bool) (n d : Z) : float :=
  match n, d with
  | Zpos pn, Zpos pd =>
      SF2Prim (SFdiv prec emax (S754_finite s pn 0) (S754_finite false pd 0))
  | _, _ => SF2Prim (S754_zero s)
  end.

(** [round(x, ndigits)] for a float [x] and [0 <= ndigits]: the exact value
    of [x] is rounded to [ndigits] decimals (ties to even) and the decimal is
    converted back to the nearest float; NaN and the infinities round to
    themselves. *)
Definition py_round (x : float) (ndigits : N) : float :=
  match Prim2SF x with
  | S754_finite s m e =>
      if (0 <=? e)%Z then x
      else
        let scale := (10 ^ Z.of_N ndigits)%Z in
        nearest_float s (round_half_even (Zpos m * scale) (2 ^ (- e))) scale
  | _ => x
  end.

End PyFloatOps.
Import PyFloatOps.

(** ** BMICalculator: the calculator *)

Section Calculator.

Context {rt : Runtime}.

Local Open Scope py_scope.

(** The builtin [float(v)]. *)
Definition py_float (v : value) : result float :=
  match v with
  | PyFloat f => Return f
  | PyStr s =>
      match float_of_str s with
      | Some f => Return f
      | None => Raise ValueError
      end
  | PyNone => Raise TypeError
  end.

(** The [try] block of [calculate_bmi]. *)
Definition calculate_bmi_body (weight height : value) : result float :=
  w <- py_float weight ;;
  h <- py_float height ;;
  h2 <- float_pow_2 h ;;
  bmi <- float_truediv w h2 ;;
  Return (py_round bmi 2).

Definition calculate_bmi (weight height : value) : result value :=
  match calculate_bmi_body weight height with
  | Return bmi => Return (PyFloat bmi)
  | Raise ValueError | Raise ZeroDivisionError => Return PyNone
  | Raise e => Raise e
  end.

(** The four categories, and the text [classify_bmi] returns for each. *)
Inductive category : Type := Underweight | Normal | Overweight | Obese.

Definition category_name (c : category) : string :=
  match c with
  | Underweight => "Underweight"
  | Normal => "Normal weight"
  | Overweight => "Overweight"
  | Obese => "Obese"
  end.

Definition classify_float (bmi : float) : category :=
  if (bmi <? 18.5)%float then Underweight
  else if (18.5 <=? bmi)%float && (bmi <? 25)%float then Normal
  else if (25 <=? bmi)%float && (bmi <? 30)%float then Overweight
  else Obese.

(** Comparing [None] or a [str] with a float raises [TypeError]. *)
Definition classify_bmi (bmi : value) : result string :=
  match bmi with
  | PyFloat b => Return (category_name (classify_float b))
  | PyNone | PyStr _ => Raise TypeError
  end.

(** The [try] block of [validate_input]. *)
Definition validate_input_body (weight height : value) : result (bool * string) :=
  weight_float <- py_float weight ;;
  height_float <- py_float height ;;
  if (weight_float <=? 0)%float || (height_float <=? 0)%float then
    Return (false, "Weight and height must be positive numbers"%string)
  else if (300 <? weight_float)%float then
    Return (false, "Weight seems too high. Please check your input."%string)
  else if (2.5 <? height_float)%float then
    Return (false, "Height seems too high. Please check your input."%string)
  else Return (true, "Valid input"%string).

Definition validate_input (weight height : value) : result (bool * string) :=
  match validate_input_body weight height with
  | Raise ValueError =>
      Return (false, "Please enter valid numbers for weight and height"%string)
  | r => r
  end.

End Calculator.

(** ** The record store

    The table [bmi_records] of [bmi_database.db].  A row holds the values the
    driver hands back for it. *)

Record row : Type := {
  row_id : Z;
  row_username : string;
  row_weight : value;
  row_height : value;
  row_bmi : value;
  row_category : string;
  row_timestamp : string
}.

(** What [get_user_history] returns for a row:
    [(timestamp, weight, height, bmi, category)]. *)
Definition record : Type := (string * value * value * value * string)%type.

Definition record_of_row (r : row) : record :=
  (row_timestamp r, row_weight r, row_height r, row_bmi r, row_category r).

Definition record_timestamp (r : record) : string :=
  match r with (timestamp, _, _, _, _) => timestamp end.

(** The state outside the program: the table ([None] until it is created) and,
    for each coming call into the driver, the error it raises, if any.  A
    call made after the list is used up succeeds. *)
Record world : Type := {
  table : option (list row);
  faults : list (option sqlite_error)
}.

Definition stored_rows (w : world) : list row :=
  match table w with
  | Some rows => rows
  | None => []
  end.

(** Computations that use the database. *)
Definition db (A : Type) : Type := world -> result A * world.

Definition db_ret {A : Type} (a : A) : db A := fun w => (Return a, w).

Definition db_raise {A : Type} (e : exn) : db A := fun w => (Raise e, w).

Definition db_lift {A : Type} (r : result A) : db A := fun w => (r, w).

Definition db_bind {A B : Type} (m : db A) (k : A -> db B) : db B :=
  fun w =>
    match m w with
    | (Return a, w') => k a w'
    | (Raise e, w') => (Raise e, w')
    end.

Declare Scope db_scope.
Delimit Scope db_scope with db.
Notation "x <- m ;; k" := (db_bind m (fun x => k))
  (at level 61, m at next level, right associativity) : db_scope.
Notation "m ;; k" := (db_bind m (fun _ => k))
  (at level 61, right associativity) : db_scope.

(** [try: body except sqlite3.Error: return default].  The line the handler
    prints is not part of the model. *)
Definition except_sqlite3 {A : Type} (body : db A) (default : A) : db A :=
  fun w =>
    match body w with
    | (Raise (Sqlite3Error _), w') => (Return default, w')
    | outcome => outcome
    end.

Module Sqlite3.

(** One call into the driver: it raises what the world has in store for it. *)
Definition driver_call : db unit :=
  fun w =>
    match faults w with
    | Some e :: rest =>
        (Raise (Sqlite3Error e), {| table := table w; faults := rest |})
    | None :: rest => (Return tt, {| table := table w; faults := rest |})
    | [] => (Return tt, w)
    end.

Definition connect : db unit := driver_call.
Definition commit : db unit := driver_call.
Definition close : db unit := driver_call.

(** [CREATE TABLE IF NOT EXISTS bmi_records (...)]. *)
Definition execute_create_table : db unit :=
  db_bind driver_call (fun _ w =>
    (Return tt, {| table := Some (stored_rows w); faults := faults w |})).

(** [id INTEGER PRIMARY KEY AUTOINCREMENT]. *)
Definition next_id (rows : list row) : Z :=
  fold_right Z.max 0%Z (map row_id rows) + 1.

Section Affinity.

Context {rt : Runtime}.

(** A value bound to a [REAL NOT NULL] column, as a read returns it: a float
    comes back as it is, except that a zero of either sign comes back as 0.0
    and that NaN is bound as NULL; a text that reads as a number comes back
    as that number, a zero again as 0.0, any other text as text.  [None] is
    the NOT NULL violation. *)
Definition real_column (v : value) : option value :=
  match v with
  | PyNone => None
  | PyFloat f =>
      if is_nan f then None
      else Some (PyFloat (if (f =? 0)%float then 0%float else f))
  | PyStr s =>
      match sqlite_real_of_text s with
      | Some r => Some (PyFloat (if (r =? 0)%float then 0%float else r))
      | None => Some (PyStr s)
      end
  end.

(** [INSERT INTO bmi_records (username, weight, height, bmi, category,
    timestamp) VALUES (?, ?, ?, ?, ?, ?)]: the new row, pending until the
    commit. *)
Definition execute_insert (username : string) (weight height bmi : value)
    (category timestamp : string) : db row :=
  db_bind driver_call (fun _ w =>
    match table w with
    | None => (Raise (Sqlite3Error OperationalError), w)
    | Some rows =>
        match real_column weight, real_column height, real_column bmi with
        | Some wv, Some hv, Some bv =>
            (Return {| row_id := next_id rows;
                       row_username := username;
                       row_weight := wv;
                       row_height := hv;
                       row_bmi := bv;
                       row_category := category;
                       row_timestamp := timestamp |}, w)
        | _, _, _ => (Raise (Sqlite3Error IntegrityError), w)
        end
    end).

End Affinity.

(** [conn.commit()] after the insert: the pending row becomes the last row of
    the table. *)
Definition commit_insert (pending : row) : db unit :=
  db_bind commit (fun _ w =>
    (Return tt, {| table := Some (stored_rows w ++ [pending]);
                   faults := faults w |})).

(** [ORDER BY timestamp DESC] under the BINARY collation.  Rows with equal
    timestamps stay in rowid order; SQL leaves their order open. *)
Fixpoint insert_desc (r : row) (sorted : list row) : list row :=
  match sorted with
  | [] => [r]
  | x :: rest =>
      if String.leb (row_timestamp x) (row_timestamp r) then r :: sorted
      else x :: insert_desc r rest
  end.

Definition order_by_timestamp_desc (rows : list row) : list row :=
  fold_right insert_desc [] rows.

(** [SELECT timestamp, weight, height, bmi, category FROM bmi_records
    WHERE username = ? ORDER BY timestamp DESC]. *)
Definition select_history (username : string) (rows : list row) : list record :=
  map record_of_row
    (order_by_timestamp_desc
       (filter (fun r => (row_username r =? username)%string) rows)).

(** [SELECT DISTINCT username FROM bmi_records], in order of first
    appearance. *)
Fixpoint distinct (seen names : list string) : list string :=
  match names with
  | [] => []
  | n :: rest =>
      if existsb (String.eqb n) seen then distinct seen rest
      else n :: distinct (n :: seen) rest
  end.

Definition select_distinct_username (rows : list row) : list string :=
  distinct [] (map row_username rows).

(** [cursor.execute] of a query: the statement fails when the table is
    missing. *)
Definition execute_select {A : Type} (query : list row -> list A) : db (list A) :=
  db_bind driver_call (fun _ w =>
    match table w with
    | None => (Raise (Sqlite3Error OperationalError), w)
    | Some rows => (Return (query rows), w)
    end).

Definition fetchall {A : Type} (cursor : list A) : db (list A) :=
  db_bind driver_call (fun _ => db_ret cursor).

End Sqlite3.

(** ** BMICalculator: the store operations *)

Section Store.

Context {rt : Runtime}.

Local Open Scope db_scope.

Definition init_database_body : db unit :=
  Sqlite3.connect ;;
  Sqlite3.execute_create_table ;;
  Sqlite3.commit ;;
  Sqlite3.close ;;
  db_ret tt.

Definition init_database : db unit := except_sqlite3 init_database_body tt.

(** The [try] block of [save_to_database]; [timestamp] is
    [datetime.now().strftime("%Y-%m-%d %H:%M:%S")] at the call. *)
Definition save_to_database_body (username : string) (weight height bmi : value)
    (category timestamp : string) : db bool :=
  Sqlite3.connect ;;
  pending <- Sqlite3.execute_insert username weight height bmi category timestamp ;;
  Sqlite3.commit_insert pending ;;
  Sqlite3.close ;;
  db_ret true.

Definition save_to_database (username : string) (weight height bmi : value)
    (category timestamp : string) : db bool :=
  except_sqlite3
    (save_to_database_body username weight height bmi category timestamp) false.

Definition get_user_history_body (username : string) : db (list record) :=
  Sqlite3.connect ;;
  cursor <- Sqlite3.execute_select (Sqlite3.select_history username) ;;
  records <- Sqlite3.fetchall cursor ;;
  Sqlite3.close ;;
  db_ret records.

Definition get_user_history (username : string) : db (list record) :=
  except_sqlite3 (get_user_history_body username) [].

Definition get_all_users_body : db (list string) :=
  Sqlite3.connect ;;
  cursor <- Sqlite3.execute_select Sqlite3.select_distinct_username ;;
  users <- Sqlite3.fetchall cursor ;;
  Sqlite3.close ;;
  db_ret users.

Definition get_all_users : db (list string) := except_sqlite3 get_all_users_body [].

(** ** BMICalculatorGUI.calculate_bmi_gui *)

(** What the user gets to see. *)
Inductive gui_outcome : Type :=
| InputError (message : string)
| CalculationError
| Displayed (username weight height : string) (bmi : value)
    (category : string) (saved : bool).

(** [username], [weight] and [height] are the stripped texts of the three
    entry fields; [timestamp] is the clock reading [save_to_database] takes. *)
Definition calculate_bmi_gui (username weight height timestamp : string)
    : db gui_outcome :=
  if (username =? "")%string then db_ret (InputError "Please enter a username")
  else
    validation <- db_lift (validate_input (PyStr weight) (PyStr height)) ;;
    match validation with
    | (false, message) => db_ret (InputError message)
    | (true, _) =>
        bmi <- db_lift (calculate_bmi (PyStr weight) (PyStr height)) ;;
        match bmi with
        | PyNone => db_ret CalculationError
        | _ =>
            category <- db_lift (classify_bmi bmi) ;;
            success <- save_to_database username (PyStr weight) (PyStr height)
                         bmi category timestamp ;;
            get_all_users ;;
            get_all_users ;;
            db_ret (Displayed username weight height bmi category success)
        end
    end.

End Store.

(** ** A runtime to run examples on

    [float(s)] for ASCII text, after the grammar of the language reference:
    optional sign, then [inf], [infinity] or [nan] in any case, or a decimal
    number with an optional exponent, digits optionally grouped by single
    underscores; surrounding whitespace is ignored and the value is the
    nearest binary64 number.  Text with other characters is not covered.

    This runtime serves the closed examples only; every general theorem holds
    for all runtimes. *)

Module AsciiRuntime.

Definition is_digit (c : ascii) : bool :=
  (48 <=? nat_of_ascii c)%nat && (nat_of_ascii c <=? 57)%nat.

Definition digit_value (c : ascii) : Z := Z.of_nat (nat_of_ascii c - 48).

Definition is_space (c : ascii) : bool :=
  let n := nat_of_ascii c in
  (n =? 32)%nat || ((9 <=? n)%nat && (n <=? 13)%nat).

Definition lower (c : ascii) : ascii :=
  let n := nat_of_ascii c in
  if (65 <=? n)%nat && (n <=? 90)%nat then ascii_of_nat (n + 32) else c.

Fixpoint lstrip (l : list ascii) : list ascii :=
  match l with
  | c :: rest => if is_space c then lstrip rest else l
  | [] => []
  end.

Definition strip (l : list ascii) : list ascii := rev (lstrip (rev (lstrip l))).

(** The digits read so far: their value and their number. *)
Definition digits : Type := (Z * Z)%type.

Definition push_digit (acc : digits) (c : ascii) : digits :=
  (fst acc * 10 + digit_value c, snd acc + 1)%Z.

(** The rest of a [digitpart] after its first digit. *)
Fixpoint more_digits (acc : digits) (l : list ascii) : digits * list ascii :=
  match l with
  | c :: rest =>
      if is_digit c then more_digits (push_digit acc c) rest
      else if Ascii.eqb c "_" then
        match rest with
        | d :: rest' =>
            if is_digit d then more_digits (push_digit acc d) rest'
            else (acc, l)
        | [] => (acc, l)
        end
      else (acc, l)
  | [] => (acc, l)
  end.

(** A [digitpart] that continues the digits [acc], if [l] starts with one. *)
Definition digitpart (acc : digits) (l : list ascii) : option (digits * list ascii) :=
  match l with
  | c :: rest => if is_digit c then Some (more_digits (push_digit acc c) rest) else None
  | [] => None
  end.

Definition sign (l : list ascii) : bool * list ascii :=
  match l with
  | c :: rest =>
      if Ascii.eqb c "-" then (true, rest)
      else if Ascii.eqb c "+" then (false, rest)
      else (false, l)
  | [] => (false, l)
  end.

(** [number]: the digits of the integer and fraction parts read as one
    integer, and the number of fraction digits. *)
Definition number (l : list ascii) : option (Z * Z * list ascii) :=
  match digitpart (0, 0)%Z l with
  | Some (int_part, rest) =>
      match rest with
      | c :: rest' =>
          if Ascii.eqb c "." then
            match digitpart (fst int_part, 0%Z) rest' with
            | Some (all, rest'') => Some (fst all, snd all, rest'')
            | None => Some (fst int_part, 0%Z, rest')
            end
          else Some (fst int_part, 0%Z, rest)
      | [] => Some (fst int_part, 0%Z, rest)
      end
  | None =>
      match l with
      | c :: rest' =>
          if Ascii.eqb c "." then
            match digitpart (0, 0)%Z rest' with
            | Some (all, rest'') => Some (fst all, snd all, rest'')
            | None => None
            end
          else None
      | [] => None
      end
  end.

(** [exponent], or 0 when there is none. *)
Definition exponent (l : list ascii) : option (Z * list ascii) :=
  match l with
  | c :: rest =>
      if Ascii.eqb (lower c) "e" then
        let (negative, rest') := sign rest in
        match digitpart (0, 0)%Z rest' with
        | Some (e, rest'') => Some (if negative then (- fst e)%Z else fst e, rest'')
        | None => None
        end
      else Some (0%Z, l)
  | [] => Some (0%Z, l)
  end.

(** The binary64 number nearest to [(-1)^s * m * 10^e]. *)
Definition decimal_to_float (s : bool) (m e : Z) : float :=
  if (0 <=? e)%Z then nearest_float s (m * 10 ^ e) 1
  else nearest_float s m (10 ^ (- e)).

Definition floatnumber (s : bool) (l : list ascii) : option float :=
  match number l with
  | Some (m, fraction_digits, rest) =>
      match exponent rest with
      | Some (e, []) => Some (decimal_to_float s m (e - fraction_digits))
      | _ => None
      end
  | None => None
  end.

Definition python_float_of_str (text : string) : option float :=
  let (s, body) := sign (strip (list_ascii_of_string text)) in
  let word := string_of_list_ascii (map lower body) in
  if ((word =? "inf") || (word =? "infinity"))%string then
    Some (if s then neg_infinity else infinity)
  else if (word =? "nan")%string then Some nan
  else floatnumber s body.

(** A numeric literal as SQLite reads it: the same decimal numbers, without
    digit grouping, [inf] or [nan].  SQLite and this function agree on the
    texts that denote a binary64 number exactly, as those of the examples do;
    on other texts SQLite's own conversion can differ in the last digits. *)
Definition sqlite_numeric_literal (text : string) : option float :=
  let (s, body) := sign (strip (list_ascii_of_string text)) in
  if existsb (Ascii.eqb "_") body then None else floatnumber s body.

(** The square, correctly rounded, for [pow(x, 2.0)]: the C library returns
    this value at the heights of the examples.  The test for an overflow far
    below the overflow range never fires ([careful_square_eq] below); it makes
    the fact the runtime asks for evident. *)
Definition careful_square (x : float) : float :=
  let p := (x * x)%float in
  if (abs x <=? 1e100)%float && is_infinity p then 0%float else p.

Definition careful_square_finite (x : float) :
  (abs x <=? 1e100)%float = true -> is_infinity (careful_square x) = false.
Proof.
  intros H. unfold careful_square. rewrite H. simpl.
  destruct (is_infinity (x * x)) eqn:E; [reflexivity | exact E].
Qed.

#[export] Instance runtime : Runtime := {
  float_of_str := python_float_of_str;
  sqlite_real_of_text := sqlite_numeric_literal;
  libm_pow_2 := careful_square;
  libm_pow_2_finite := careful_square_finite
}.

End AsciiRuntime.

(** ** Vocabulary of the properties *)

(** The next [n] calls into the driver succeed. *)
Definition quiet (n : nat) (w : world) : bool :=
  forallb (fun fault => match fault with None => true | Some _ => false end)
    (firstn n (faults w)).

(** A read of the table runs into a database error: the table is missing, or
    one of the four driver calls of the read fails. *)
Definition read_fails (w : world) : Prop :=
  table w = None \/ quiet 4 w = false.

(** The operations that reach the store. *)
Inductive store_op : Type :=
| InitDatabase
| SaveToDatabase (username : string) (weight height bmi : value)
    (category timestamp : string)
| GetUserHistory (username : string)
| GetAllUsers
| CalculateBmiGui (username weight height timestamp : string).

Definition world_after {rt : Runtime} (op : store_op) (w : world) : world :=
  match op with
  | InitDatabase => snd (init_database w)
  | SaveToDatabase username weight height bmi category timestamp =>
      snd (save_to_database username weight height bmi category timestamp w)
  | GetUserHistory username => snd (get_user_history username w)
  | GetAllUsers => snd (get_all_users w)
  | CalculateBmiGui username weight height timestamp =>
      snd (calculate_bmi_gui username weight height timestamp w)
  end.

(** Newest first: timestamps never increase along the list. *)
Definition newest_first (records : list record) : Prop :=
  StronglySorted
    (fun earlier later =>
       String.leb (record_timestamp later) (record_timestamp earlier) = true)
    records.

(** The records of [username] among [rows]. *)
Definition records_of (username : string) (rows : list row) : list record :=
  map record_of_row (filter (fun r => (row_username r =? username)%string) rows).

(** A computation appends at most [n] rows to the table and touches no row
    that is already there. *)
Definition grows {A : Type} (n : nat) (m : db A) : Prop :=
  forall w, exists new,
    stored_rows (snd (m w)) = stored_rows w ++ new /\ (length new <= n)%nat.

(** The mantissa of a shift record lies in [[0, B]]. *)
Definition small (B : Z) (mrs : shr_record) : Prop := (0 <= shr_m mrs <= B)%Z.

(** Neither NaN nor an infinity. *)
Definition finite_or_zero (s : spec_float) : Prop :=
  match s with
  | S754_zero _ | S754_finite _ _ _ => True
  | S754_infinity _ | S754_nan => False
  end.

(** Later rows are not newer. *)
Definition row_newer_eq (earlier later : row) : Prop :=
  String.leb (row_timestamp later) (row_timestamp earlier) = true.

(** ** Worlds to run examples in *)

Module Example.

(** The database right after [init_database], with a driver that works. *)
Definition fresh : world := {| table := Some []; faults := [] |}.

(** The database file could not be initialised. *)
Definition broken : world := {| table := None; faults := [] |}.

Definition monday : string := "2024-01-01 10:00:00".
Definition tuesday : string := "2024-01-02 09:30:00".

(** Three measurements of two users. *)
Definition three_rows : list row :=
  [ {| row_id := 1; row_username := "alice"; row_weight := PyFloat 70;
       row_height := PyFloat 1.75; row_bmi := PyFloat 22.86;
       row_category := "Normal weight"; row_timestamp := monday |};
    {| row_id := 2; row_username := "bob"; row_weight := PyFloat 50;
       row_height := PyFloat 1.8; row_bmi := PyFloat 15.43;
       row_category := "Underweight"; row_timestamp := monday |};
    {| row_id := 3; row_username := "alice"; row_weight := PyFloat 71;
       row_height := PyFloat 1.75; row_bmi := PyFloat 23.18;
       row_category := "Normal weight"; row_timestamp := tuesday |} ].

Definition populated : world := {| table := Some three_rows; faults := [] |}.

End Example.

(** ** command_line_bmi *)

(** What the command-line mode prints.  The results block is kept as the
    values it shows, not as formatted text. *)
Inductive cli_line : Type :=
| PrintedBanner
| PrintedPositiveError
| PrintedNumberError
| PrintedResults (weight height : float) (bmi : value) (category : string)
| PrintedGoodbye.

(** How the command-line mode ends: after "Goodbye!", by an exception that
    nothing catches, or because [input] has nothing left to read. *)
Inductive cli_exit : Type :=
| CliFinished
| CliRaised (e : exn)
| CliEndOfInput.

Definition cli_run : Type := (list cli_line * cli_exit * world)%type.

Definition cli_printed (lines : list cli_line) (run : cli_run) : cli_run :=
  match run with
  | (more, exit, w) => (lines ++ more, exit, w)
  end.

Section CommandLine.

Context {rt : Runtime}.

Local Open Scope db_scope.

(** The part of the [try] block after the two numbers were found positive:
    a new [BMICalculator] (which initialises the database), the BMI, its
    category, and the results block. *)
Definition cli_results (weight height : float) : db cli_line :=
  init_database ;;
  bmi <- db_lift (calculate_bmi (PyFloat weight) (PyFloat height)) ;;
  category <- db_lift (classify_bmi bmi) ;;
  db_ret (PrintedResults weight height bmi category).

(** [again = input(...).lower()] is ['y'] for the answers [y] and [Y]. *)
Definition wants_another (answer : string) : bool :=
  ((answer =? "y") || (answer =? "Y"))%string.

(** The [while True] loop over what the user types, one entry per [input]
    call. *)
Fixpoint cli_loop (inputs : list string) (w : world) {struct inputs} : cli_run :=
  let again (lines : list cli_line) (rest : list string) (w' : world) : cli_run :=
    match rest with
    | [] => (lines, CliEndOfInput, w')
    | answer :: rest' =>
        if wants_another answer then cli_printed lines (cli_loop rest' w')
        else (lines ++ [PrintedGoodbye], CliFinished, w')
    end in
  match inputs with
  | [] => ([], CliEndOfInput, w)
  | weight_text :: inputs1 =>
      match float_of_str weight_text with
      | None => again [PrintedNumberError] inputs1 w
      | Some weight =>
          match inputs1 with
          | [] => ([], CliEndOfInput, w)
          | height_text :: inputs2 =>
              match float_of_str height_text with
              | None => again [PrintedNumberError] inputs2 w
              | Some height =>
                  if ((weight <=? 0) || (height <=? 0))%float then
                    cli_printed [PrintedPositiveError] (cli_loop inputs2 w)
                  else
                    match cli_results weight height w with
                    | (Return results, w') => again [results] inputs2 w'
                    | (Raise ValueError, w') => again [PrintedNumberError] inputs2 w'
                    | (Raise e, w') => ([], CliRaised e, w')
                    end
              end
          end
      end
  end.

Definition command_line_bmi (inputs : list string) (w : world) : cli_run :=
  cli_printed [PrintedBanner] (cli_loop inputs w).

End CommandLine.

(** ** BMICalculatorGUI.generate_stats: the data of the chart *)

(** What the statistics tab ends with: an error box, an information box, or a
    chart over the dates with its BMI and weight series. *)
Inductive stats_outcome : Type :=
| SelectionError
| NoData (username : string)
| Chart (dates : list string) (bmis : list value) (weights : list float).

Section Statistics.

Context {rt : Runtime}.

(** The loop that fills [dates], [bmis] and [weights], over the records in the
    order it visits them. *)
Fixpoint chart_series (records : list record)
    : result (list string * list value * list float) :=
  match records with
  | [] => Return ([], [], [])
  | (timestamp, weight, _, bmi, _) :: rest =>
      bind (py_float weight) (fun weight_float =>
        bind (chart_series rest) (fun series =>
          match series with
          | (dates, bmis, weights) =>
              Return (timestamp :: dates, bmi :: bmis, weight_float :: weights)
          end))
  end.

(** [username] is the selection of the combo box. *)
Definition generate_stats (username : string) : db stats_outcome :=
  if (username =? "")%string then db_ret SelectionError
  else
    db_bind (get_user_history username) (fun records =>
      match records with
      | [] => db_ret (NoData username)
      | _ :: _ =>
          db_bind (db_lift (chart_series (rev records))) (fun series =>
            match series with
            | (dates, bmis, weights) => db_ret (Chart dates bmis weights)
            end)
      end).

End Statistics.

(** ** More vocabulary *)

(** A value a [REAL NOT NULL] column takes. *)
Definition storable {rt : Runtime} (v : value) : Prop :=
  Sqlite3.real_column v <> None.

(** Oldest first: dates never decrease along the list. *)
Definition oldest_first (dates : list string) : Prop :=
  StronglySorted (fun earlier later => String.leb earlier later = true) dates.

(** [float(v)] returns. *)
Definition numeric {rt : Runtime} (v : value) : Prop :=
  exists f, py_float v = Return f.

(** The weight and the bmi of a record of a history. *)
Definition record_weight (r : record) : value :=
  match r with (_, weight, _, _, _) => weight end.

Definition record_bmi (r : record) : value :=
  match r with (_, _, _, bmi, _) => bmi end.

(** ** More worlds to run examples in *)

Module Scenario.

Definition wednesday : string := "2024-01-03 08:15:00".

(** The populated database with a driver that fails the fourth call. *)
Definition closing_fails : world :=
  {| table := Some Example.three_rows;
     faults := [None; None; None; Some OperationalError] |}.

(** The populated database with a driver that fails the first call. *)
Definition unreachable : world :=
  {| table := Some Example.three_rows; faults := [Some OperationalError] |}.

End Scenario.

(** * Properties *)

(** ** Facts about binary64 comparison, NaN and rounding *)

Module FloatFacts.


Lemma SFcompare_refl (s : spec_float) :
  s <> S754_nan -> SFcompare s s = Some Eq.
Proof.
  destruct s as [[] | [] | | [] m e]; simpl; try congruence; intros _;
    rewrite Z.compare_refl;
    change (Pos.compare_cont Eq m m) with (Pos.compare m m);
    rewrite Pos.compare_refl; reflexivity.
Qed.

Lemma SFcompare_antisym (x y : spec_float) :
  SFcompare y x = option_map CompOpp (SFcompare x y).
Proof.
  destruct x as [[] | [] | | [] mx ex], y as [[] | [] | | [] my ey];
    simpl; try reflexivity;
    rewrite (Z.compare_antisym ex ey);
    destruct (ex ?= ey)%Z; simpl; try reflexivity;
    change (Pos.compare_cont Eq mx my) with (Pos.compare mx my);
    change (Pos.compare_cont Eq my mx) with (Pos.compare my mx);
    rewrite (Pos.compare_antisym mx my);
    destruct (Pos.compare mx my); reflexivity.
Qed.

Lemma is_nan_Prim2SF (x : float) :
  is_nan x = true <-> Prim2SF x = S754_nan.
Proof.
  unfold is_nan. rewrite FloatAxioms.eqb_spec. unfold SFeqb. split.
  - intros H. destruct (Prim2SF x) eqn:E; try reflexivity;
      rewrite SFcompare_refl in H by congruence; discriminate.
  - intros ->. reflexivity.
Qed.

Lemma is_nan_false_Prim2SF (x : float) :
  is_nan x = false <-> Prim2SF x <> S754_nan.
Proof.
  rewrite <- is_nan_Prim2SF. destruct (is_nan x); split; congruence.
Qed.

Lemma is_nan_eq (x : float) : is_nan x = true -> x = nan.
Proof.
  intros H. apply is_nan_Prim2SF in H.
  rewrite <- (SF2Prim_Prim2SF x), H. reflexivity.
Qed.

Lemma leb_false_ltb (x y : float) :
  (x <=? y)%float = false -> is_nan x = false -> is_nan y = false ->
  (y <? x)%float = true.
Proof.
  rewrite FloatAxioms.leb_spec, FloatAxioms.ltb_spec, !is_nan_false_Prim2SF.
  unfold SFleb, SFltb. rewrite (SFcompare_antisym (Prim2SF x) (Prim2SF y)).
  destruct (Prim2SF x) as [[] | [] | | [] mx ex], (Prim2SF y) as [[] | [] | | [] my ey];
    simpl; try congruence;
    destruct (ex ?= ey)%Z; simpl; try congruence;
    destruct (Pos.compare_cont Eq mx my); simpl; congruence.
Qed.

Lemma ltb_false_leb (x y : float) :
  (x <? y)%float = false -> is_nan x = false -> is_nan y = false ->
  (y <=? x)%float = true.
Proof.
  rewrite FloatAxioms.leb_spec, FloatAxioms.ltb_spec, !is_nan_false_Prim2SF.
  unfold SFleb, SFltb. rewrite (SFcompare_antisym (Prim2SF x) (Prim2SF y)).
  destruct (Prim2SF x) as [[] | [] | | [] mx ex], (Prim2SF y) as [[] | [] | | [] my ey];
    simpl; try congruence;
    destruct (ex ?= ey)%Z; simpl; try congruence;
    destruct (Pos.compare_cont Eq mx my); simpl; congruence.
Qed.

Lemma ltb_leb_false (x y : float) :
  (x <? y)%float = true -> (y <=? x)%float = false.
Proof.
  rewrite FloatAxioms.leb_spec, FloatAxioms.ltb_spec.
  unfold SFleb, SFltb. rewrite (SFcompare_antisym (Prim2SF x) (Prim2SF y)).
  destruct (SFcompare (Prim2SF x) (Prim2SF y)) as [[] | ]; simpl; congruence.
Qed.

Lemma leb_ltb_false (x y : float) :
  (x <=? y)%float = true -> (y <? x)%float = false.
Proof.
  rewrite FloatAxioms.leb_spec, FloatAxioms.ltb_spec.
  unfold SFleb, SFltb. rewrite (SFcompare_antisym (Prim2SF x) (Prim2SF y)).
  destruct (SFcompare (Prim2SF x) (Prim2SF y)) as [[] | ]; simpl; congruence.
Qed.

Lemma ltb_not_nan (x y : float) :
  (x <? y)%float = true -> is_nan x = false /\ is_nan y = false.
Proof.
  rewrite FloatAxioms.ltb_spec, !is_nan_false_Prim2SF. unfold SFltb.
  destruct (Prim2SF x), (Prim2SF y); simpl; split; congruence.
Qed.

Lemma leb_not_nan (x y : float) :
  (x <=? y)%float = true -> is_nan x = false /\ is_nan y = false.
Proof.
  rewrite FloatAxioms.leb_spec, !is_nan_false_Prim2SF. unfold SFleb.
  destruct (Prim2SF x), (Prim2SF y); simpl; split; congruence.
Qed.

Lemma nan_leb (x y : float) : is_nan x = true -> (x <=? y)%float = false /\ (y <=? x)%float = false /\ (x <? y)%float = false /\ (y <? x)%float = false.
Proof.
  intros H. apply is_nan_Prim2SF in H.
  rewrite !FloatAxioms.leb_spec, !FloatAxioms.ltb_spec, H.
  unfold SFleb, SFltb. destruct (Prim2SF y); simpl; auto.
Qed.

Lemma div_nan_l (x y : float) : is_nan x = true -> is_nan (x / y) = true.
Proof.
  rewrite !is_nan_Prim2SF, div_spec. intros ->. reflexivity.
Qed.

Lemma div_nan_r (x y : float) : is_nan y = true -> is_nan (x / y) = true.
Proof.
  rewrite !is_nan_Prim2SF, div_spec. intros ->.
  destruct (Prim2SF x); reflexivity.
Qed.

Lemma py_round_nan (x : float) (ndigits : N) :
  is_nan x = true -> py_round x ndigits = x.
Proof.
  intros H. apply is_nan_Prim2SF in H. unfold py_round. rewrite H. reflexivity.
Qed.


(** *** Squares far below the overflow range are finite *)

Lemma digits2_pos_size (p : positive) : digits2_pos p = Pos.size p.
Proof. induction p; simpl; congruence. Qed.

Lemma digits2_pos_gt (p : positive) : (Zpos p < 2 ^ Zpos (digits2_pos p))%Z.
Proof.
  rewrite digits2_pos_size. pose proof (Pos.size_gt p) as H.
  apply Pos2Z.pos_lt_pos in H. rewrite Pos2Z.inj_pow in H. exact H.
Qed.

Lemma digits2_pos_le (p : positive) (k : Z) :
  (0 <= k)%Z -> (Zpos p < 2 ^ k)%Z -> (Zpos (digits2_pos p) <= k)%Z.
Proof.
  intros Hk Hp. rewrite digits2_pos_size.
  pose proof (Pos.size_le p) as H.
  apply Pos2Z.pos_le_pos in H. rewrite Pos2Z.inj_pow in H.
  destruct (Z_le_gt_dec (Zpos (Pos.size p)) k) as [Hle | Hgt]; [exact Hle | exfalso].
  assert (2 ^ (k + 1) <= 2 ^ Zpos (Pos.size p))%Z as Hpow
    by (apply Z.pow_le_mono_r; lia).
  rewrite Z.pow_add_r in Hpow by lia.
  change (Zpos p~0) with (2 * Zpos p)%Z in H. lia.
Qed.

Lemma Zdigits2_le (n k : Z) :
  (0 <= k)%Z -> (0 <= n < 2 ^ k)%Z -> (0 <= Zdigits2 n <= k)%Z.
Proof.
  intros Hk [Hn Hlt]. destruct n as [ | p | p]; simpl; try lia.
  split; [lia | apply digits2_pos_le; assumption].
Qed.

Lemma shr_1_small (B : Z) (mrs : shr_record) : small B mrs -> small B (shr_1 mrs).
Proof.
  unfold small. destruct mrs as [m r s]. simpl.
  destruct m as [ | [p | p | ] | p]; simpl; lia.
Qed.

Lemma iter_pos_shr_1_small (B : Z) (p : positive) :
  forall mrs, small B mrs -> small B (iter_pos shr_1 p mrs).
Proof.
  induction p as [p IH | p IH | ]; simpl; intros mrs H.
  - apply IH, IH, shr_1_small, H.
  - apply IH, IH, H.
  - apply shr_1_small, H.
Qed.

Lemma shr_small (B : Z) (mrs : shr_record) (e n : Z) :
  small B mrs ->
  small B (fst (shr mrs e n)) /\ snd (shr mrs e n) = (e + Z.max 0 n)%Z.
Proof.
  intros H. destruct n as [ | p | p]; simpl.
  - split; [exact H | lia].
  - split; [apply iter_pos_shr_1_small, H | lia].
  - split; [exact H | lia].
Qed.

Lemma round_nearest_even_bounds (m : Z) (l : location) :
  (0 <= m)%Z -> (m <= round_nearest_even m l <= m + 1)%Z.
Proof.
  intros H. destruct l as [ | []]; simpl; try lia.
  destruct (Z.even m); lia.
Qed.

Lemma binary_round_aux_small (sx : bool) (mx ex : Z) :
  (0 <= mx < 2 ^ 106)%Z -> (ex <= 560)%Z ->
  finite_or_zero (binary_round_aux prec emax sx mx ex loc_Exact).
Proof.
  intros Hmx Hex. unfold binary_round_aux, shr_fexp.
  pose proof (Zdigits2_le mx 106 ltac:(lia) Hmx) as Hd.
  set (n1 := (fexp prec emax (Zdigits2 mx + ex) - ex)%Z).
  assert (small (2 ^ 106 - 1) (shr_record_of_loc mx loc_Exact)) as Hs0
    by (unfold small; simpl; lia).
  destruct (shr_small _ _ ex n1 Hs0) as [Hs1 He1].
  destruct (shr (shr_record_of_loc mx loc_Exact) ex n1) as [mrs1 e1].
  simpl in Hs1, He1. unfold small in Hs1.
  pose proof (round_nearest_even_bounds _ (loc_of_shr_record mrs1) (proj1 Hs1)) as Hr.
  set (m2 := round_nearest_even (shr_m mrs1) (loc_of_shr_record mrs1)) in *.
  pose proof (Zdigits2_le m2 107 ltac:(lia)) as Hd2.
  assert (2 ^ 107 = 2 * 2 ^ 106)%Z as Hp by reflexivity.
  specialize (Hd2 ltac:(lia)).
  set (n2 := (fexp prec emax (Zdigits2 m2 + e1) - e1)%Z).
  assert (small (2 ^ 106) (shr_record_of_loc m2 loc_Exact)) as Hs2
    by (unfold small; simpl; lia).
  destruct (shr_small _ _ e1 n2 Hs2) as [Hs3 He3].
  destruct (shr (shr_record_of_loc m2 loc_Exact) e1 n2) as [mrs3 e3].
  simpl in Hs3, He3. unfold small in Hs3.
  destruct (shr_m mrs3) as [ | p | p] eqn:Em; simpl; try lia; try exact I.
  assert (e3 <= 971)%Z as Hle.
  { subst e3 e1 n1 n2. unfold fexp, emin, prec, emax in *. lia. }
  apply Z.leb_le in Hle. rewrite Hle. exact I.
Qed.

Lemma bounded_mantissa (m : positive) (e : Z) :
  bounded prec emax m e = true -> (Zpos m < 2 ^ 53)%Z.
Proof.
  unfold bounded, canonical_mantissa. intros H.
  apply andb_true_iff in H. destruct H as [H _]. apply Z.eqb_eq in H.
  pose proof (digits2_pos_gt m) as Hgt.
  assert (Zpos (digits2_pos m) <= 53)%Z as Hle
    by (unfold fexp, emin, prec, emax in H; lia).
  eapply Z.lt_le_trans; [exact Hgt | apply Z.pow_le_mono_r; lia].
Qed.

Lemma SFmul_square_small (s : bool) (m : positive) (e : Z) :
  bounded prec emax m e = true -> (e <= 280)%Z ->
  finite_or_zero (SF64mul (S754_finite s m e) (S754_finite s m e)).
Proof.
  intros Hb He. apply bounded_mantissa in Hb.
  unfold SF64mul, SFmul. apply binary_round_aux_small; [ | lia].
  rewrite Pos2Z.inj_mul.
  assert (2 ^ 106 = 2 ^ 53 * 2 ^ 53)%Z as -> by reflexivity. nia.
Qed.

Lemma is_infinity_Prim2SF (x : float) :
  finite_or_zero (Prim2SF x) -> is_infinity x = false.
Proof.
  unfold is_infinity. rewrite FloatAxioms.eqb_spec, abs_spec.
  change (Prim2SF infinity) with (S754_infinity false).
  destruct (Prim2SF x) as [[] | [] | | [] m e]; simpl; intros H;
    try reflexivity; contradiction.
Qed.

Lemma SFleb_exponent (m m0 : positive) (e e0 : Z) :
  SFleb (S754_finite false m e) (S754_finite false m0 e0) = true -> (e <= e0)%Z.
Proof.
  unfold SFleb, SFcompare.
  destruct (Z.compare_spec e e0) as [Heq | Hlt | Hgt]; intros H;
    try lia; discriminate.
Qed.

(** The square of a float between -1e100 and 1e100 is finite. *)
Lemma square_finite (x : float) :
  (abs x <=? 1e100)%float = true -> is_infinity (x * x) = false.
Proof.
  rewrite FloatAxioms.leb_spec, abs_spec. intros Hle.
  apply is_infinity_Prim2SF. rewrite mul_spec.
  pose proof (Prim2SF_valid x) as Hv.
  change (Prim2SF 1e100) with (S754_finite false 5147557589468029 280) in Hle.
  destruct (Prim2SF x) as [[] | [] | | s m e]; try discriminate; try exact I.
  apply SFmul_square_small; [exact Hv | ].
  exact (SFleb_exponent _ _ _ _ Hle).
Qed.

(** The example runtime squares by the product: its overflow test never
    fires. *)
Lemma careful_square_eq (x : float) : AsciiRuntime.careful_square x = (x * x)%float.
Proof.
  unfold AsciiRuntime.careful_square.
  destruct (abs x <=? 1e100)%float eqn:E; [ | reflexivity].
  rewrite (square_finite x E). reflexivity.
Qed.

End FloatFacts.

Module FloatOrder.
Import FloatFacts.

Lemma SFcompare_le_lt_trans (x y z : spec_float) :
  SFleb x y = true -> SFltb y z = true -> SFltb x z = true.
Proof.
  unfold SFleb, SFltb.
  destruct x as [[] | [] | | [] mx ex], y as [[] | [] | | [] my ey],
    z as [[] | [] | | [] mz ez]; simpl; try congruence;
    change (Pos.compare_cont Eq mx my) with (Pos.compare mx my);
    change (Pos.compare_cont Eq my mz) with (Pos.compare my mz);
    change (Pos.compare_cont Eq mx mz) with (Pos.compare mx mz);
    destruct (Z.compare_spec ex ey), (Z.compare_spec ey ez),
      (Z.compare_spec ex ez); simpl; try congruence; try lia;
    destruct (Pos.compare_spec mx my), (Pos.compare_spec my mz),
      (Pos.compare_spec mx mz); simpl; try congruence; lia.
Qed.

Lemma leb_ltb_trans (x y z : float) :
  (x <=? y)%float = true -> (y <? z)%float = true -> (x <? z)%float = true.
Proof.
  rewrite FloatAxioms.leb_spec, !FloatAxioms.ltb_spec.
  apply SFcompare_le_lt_trans.
Qed.

Lemma eqb_leb (x y : float) :
  (x =? y)%float = true -> (x <=? y)%float = true.
Proof.
  rewrite FloatAxioms.eqb_spec, FloatAxioms.leb_spec. unfold SFeqb, SFleb.
  destruct (SFcompare (Prim2SF x) (Prim2SF y)) as [[] | ]; congruence.
Qed.

Lemma ltb_leb (x y : float) :
  (x <? y)%float = true -> (x <=? y)%float = true.
Proof.
  rewrite FloatAxioms.ltb_spec, FloatAxioms.leb_spec. unfold SFltb, SFleb.
  destruct (SFcompare (Prim2SF x) (Prim2SF y)) as [[] | ]; congruence.
Qed.

Lemma abs_of_positive (x : float) : (0 <? x)%float = true -> abs x = x.
Proof.
  rewrite FloatAxioms.ltb_spec. intros H.
  apply Prim2SF_inj. rewrite abs_spec.
  change (Prim2SF 0) with (S754_zero false) in H.
  destruct (Prim2SF x) as [[] | [] | | [] m e]; try discriminate H; reflexivity.
Qed.

End FloatOrder.

(** ** The calculator *)

Section CalculatorFacts.

Context {rt : Runtime}.

Import FloatFacts FloatOrder.

(** C1. For every BMI value [classify_bmi] answers with one of the four
    categories, chosen by the fixed thresholds: Underweight when
    [bmi < 18.5], Normal when [18.5 <= bmi < 25], Overweight when
    [25 <= bmi < 30], and Obese in every other case. *)
Theorem classify_bmi_thresholds (bmi : float) :
  exists c : category,
    classify_bmi (PyFloat bmi) = Return (category_name c) /\
    (c = Underweight <-> (bmi <? 18.5)%float = true) /\
    (c = Normal <->
       (18.5 <=? bmi)%float = true /\ (bmi <? 25)%float = true) /\
    (c = Overweight <->
       (25 <=? bmi)%float = true /\ (bmi <? 30)%float = true) /\
    (c = Obese <->
       (bmi <? 18.5)%float = false /\
       ~ ((18.5 <=? bmi)%float = true /\ (bmi <? 25)%float = true) /\
       ~ ((25 <=? bmi)%float = true /\ (bmi <? 30)%float = true)).
Proof.
  exists (classify_float bmi). split; [reflexivity | ].
  assert ((18.5 <=? bmi)%float = true -> (bmi <? 18.5)%float = false) as Hlow
    by apply leb_ltb_false.
  assert ((25 <=? bmi)%float = true -> (bmi <? 25)%float = false) as Hmid
    by apply leb_ltb_false.
  assert ((25 <=? bmi)%float = true -> (bmi <? 18.5)%float = false) as Hfar.
  { intros H. destruct (bmi <? 18.5)%float eqn:E; [ | reflexivity].
    pose proof (leb_ltb_trans _ _ _ H E) as Habs. discriminate Habs. }
  unfold classify_float.
  destruct (bmi <? 18.5)%float eqn:E1, (18.5 <=? bmi)%float eqn:E2,
    (bmi <? 25)%float eqn:E3, (25 <=? bmi)%float eqn:E4,
    (bmi <? 30)%float eqn:E5; simpl;
    repeat split; intros; try discriminate; try reflexivity;
    try (specialize (Hlow eq_refl)); try (specialize (Hmid eq_refl));
    try (specialize (Hfar eq_refl)); try discriminate;
    repeat match goal with
      | H : _ /\ _ |- _ => destruct H
      | H : ~ _ |- _ => exfalso; apply H; split; reflexivity
      | |- ~ _ => intros [? ?]
      end; try discriminate.
Qed.


(** What an accepting [validate_input] has checked. *)
Lemma validate_input_ok_inv (weight height : value) (message : string) :
  validate_input weight height = Return (true, message) ->
  exists w h,
    py_float weight = Return w /\ py_float height = Return h /\
    (w <=? 0)%float = false /\ (h <=? 0)%float = false /\
    (300 <? w)%float = false /\ (2.5 <? h)%float = false.
Proof.
  unfold validate_input, validate_input_body, bind.
  destruct (py_float weight) as [w | [ | | | | ]]; try discriminate.
  destruct (py_float height) as [h | [ | | | | ]]; try discriminate.
  destruct (w <=? 0)%float eqn:Ew; simpl; try discriminate.
  destruct (h <=? 0)%float eqn:Eh; simpl; try discriminate.
  destruct (300 <? w)%float eqn:Ew'; try discriminate.
  destruct (2.5 <? h)%float eqn:Eh'; try discriminate.
  intros _. exists w, h. repeat split; assumption.
Qed.

(** [validate_input] accepts exactly the numeric inputs for which none of its
    three tests fires.  A NaN passes all three. *)
Lemma validate_input_ok_iff (weight height : value) :
  validate_input weight height = Return (true, "Valid input"%string) <->
  exists w h,
    py_float weight = Return w /\ py_float height = Return h /\
    (is_nan w = true \/ ((0 <? w)%float = true /\ (w <=? 300)%float = true)) /\
    (is_nan h = true \/ ((0 <? h)%float = true /\ (h <=? 2.5)%float = true)).
Proof.
  split.
  - intros H. apply validate_input_ok_inv in H.
    destruct H as (w & h & Hw & Hh & Hw0 & Hh0 & Hw1 & Hh1).
    exists w, h. repeat split; try assumption.
    + destruct (is_nan w) eqn:En; [left; reflexivity | right]. split.
      * apply leb_false_ltb; [assumption .. | reflexivity].
      * apply ltb_false_leb; [assumption | reflexivity | assumption].
    + destruct (is_nan h) eqn:En; [left; reflexivity | right]. split.
      * apply leb_false_ltb; [assumption .. | reflexivity].
      * apply ltb_false_leb; [assumption | reflexivity | assumption].
  - intros (w & h & Hw & Hh & Hwr & Hhr).
    unfold validate_input, validate_input_body, bind. rewrite Hw, Hh.
    assert ((w <=? 0)%float = false /\ (300 <? w)%float = false) as [-> Ew].
    { destruct Hwr as [Hn | [H0 H1]].
      - destruct (nan_leb w 0 Hn) as (-> & _ & _ & _).
        destruct (nan_leb w 300 Hn) as (_ & _ & _ & ->). split; reflexivity.
      - split; [apply ltb_leb_false, H0 | apply leb_ltb_false, H1]. }
    assert ((h <=? 0)%float = false /\ (2.5 <? h)%float = false) as [-> Eh].
    { destruct Hhr as [Hn | [H0 H1]].
      - destruct (nan_leb h 0 Hn) as (-> & _ & _ & _).
        destruct (nan_leb h 2.5 Hn) as (_ & _ & _ & ->). split; reflexivity.
      - split; [apply ltb_leb_false, H0 | apply leb_ltb_false, H1]. }
    simpl. rewrite Ew, Eh. reflexivity.
Qed.

(** A zero weight or a zero height is turned down, with a reason. *)
Lemma validate_input_zero (weight height : value) (w h : float) :
  py_float weight = Return w -> py_float height = Return h ->
  (w =? 0)%float = true \/ (h =? 0)%float = true ->
  validate_input weight height =
    Return (false, "Weight and height must be positive numbers"%string).
Proof.
  intros Hw Hh Hz. unfold validate_input, validate_input_body, bind.
  rewrite Hw, Hh.
  assert (((w <=? 0) || (h <=? 0))%float = true) as ->; [ | reflexivity].
  apply orb_true_iff. destruct Hz as [Hz | Hz]; [left | right];
    apply eqb_leb, Hz.
Qed.

(** On numbers, that is on floats other than NaN, [validate_input] accepts
    exactly the weights in (0, 300] with the heights in (0, 2.5]. *)
Lemma validate_input_ok_iff_numbers (weight height : value) (w h : float) :
  py_float weight = Return w -> py_float height = Return h ->
  is_nan w = false -> is_nan h = false ->
  validate_input weight height = Return (true, "Valid input"%string) <->
  ((0 <? w)%float = true /\ (w <=? 300)%float = true) /\
  ((0 <? h)%float = true /\ (h <=? 2.5)%float = true).
Proof.
  intros Hw Hh Hnw Hnh. rewrite validate_input_ok_iff. split.
  - intros (w' & h' & Hw' & Hh' & Hwr & Hhr).
    rewrite Hw in Hw'. rewrite Hh in Hh'.
    injection Hw' as <-. injection Hh' as <-.
    destruct Hwr as [Hn | Hwr]; [congruence | ].
    destruct Hhr as [Hn | Hhr]; [congruence | ].
    split; assumption.
  - intros [Hwr Hhr]. exists w, h. repeat split; auto.
Qed.

(** [x ** 2] raises nothing but [OverflowError]. *)
Lemma float_pow_2_raises (x : float) (e : exn) :
  float_pow_2 x = Raise e -> e = OverflowError.
Proof.
  unfold float_pow_2.
  destruct (is_nan x); [discriminate | ].
  destruct (is_infinity x); [discriminate | ].
  destruct (x =? 0)%float; [discriminate | ].
  destruct (abs x =? 1)%float; [discriminate | ].
  destruct (is_infinity (libm_pow_2 (abs x))); [ | discriminate].
  intros [= <-]. reflexivity.
Qed.

(** For an input that [validate_input] accepts, the square of the height
    cannot overflow. *)
Lemma validated_height_pow (h : float) :
  (h <=? 0)%float = false -> (2.5 <? h)%float = false ->
  exists h2, float_pow_2 h = Return h2.
Proof.
  intros H0 H1. unfold float_pow_2.
  destruct (is_nan h) eqn:En; [eauto | ].
  destruct (is_infinity h); [eauto | ].
  destruct (h =? 0)%float; [eauto | ].
  destruct (abs h =? 1)%float; [eauto | ].
  assert ((0 <? h)%float = true) as Hpos
    by (apply leb_false_ltb; [assumption .. | reflexivity]).
  assert ((h <=? 2.5)%float = true) as Hle
    by (apply ltb_false_leb; [assumption | reflexivity | assumption]).
  assert ((abs (abs h) <=? 1e100)%float = true) as Hsmall.
  { rewrite !(abs_of_positive h Hpos).
    apply ltb_leb, (leb_ltb_trans h 2.5 1e100 Hle). reflexivity. }
  rewrite (libm_pow_2_finite _ Hsmall). eauto.
Qed.

(** [calculate_bmi] on numbers whose height passed the two height tests. *)
Lemma calculate_bmi_of_validated (weight height : value) (w h : float) :
  py_float weight = Return w -> py_float height = Return h ->
  (h <=? 0)%float = false -> (2.5 <? h)%float = false ->
  exists h2,
    float_pow_2 h = Return h2 /\
    calculate_bmi weight height =
      if (h2 =? 0)%float then Return PyNone
      else Return (PyFloat (py_round (w / h2) 2)).
Proof.
  intros Hw Hh Hh0 Hh1.
  destruct (validated_height_pow h Hh0 Hh1) as [h2 Hpow].
  exists h2. split; [exact Hpow | ].
  unfold calculate_bmi, calculate_bmi_body, bind. rewrite Hw, Hh, Hpow.
  unfold float_truediv. destruct (h2 =? 0)%float; reflexivity.
Qed.

(** C9, as the code has it.  For every weight and height accepted by
    [validate_input], [calculate_bmi] never takes its [ValueError] branch and
    raises nothing: the square [float(height) ** 2] is computed, and the
    result is [None] exactly when that square is zero, and otherwise the
    weight divided by it, rounded to two decimals. *)
Theorem calculate_bmi_after_validation (weight height : value) (message : string) :
  validate_input weight height = Return (true, message) ->
  exists w h h2,
    py_float weight = Return w /\ py_float height = Return h /\
    float_pow_2 h = Return h2 /\
    calculate_bmi weight height =
      if (h2 =? 0)%float then Return PyNone
      else Return (PyFloat (py_round (w / h2) 2)).
Proof.
  intros H. apply validate_input_ok_inv in H.
  destruct H as (w & h & Hw & Hh & _ & Hh0 & _ & Hh1).
  destruct (calculate_bmi_of_validated weight height w h Hw Hh Hh0 Hh1)
    as (h2 & Hpow & Hcalc).
  exists w, h, h2. repeat split; assumption.
Qed.

Lemma py_float_raises (v : value) (e : exn) :
  py_float v = Raise e -> e = ValueError \/ e = TypeError.
Proof.
  destruct v as [ | s | f]; simpl.
  - intros [= <-]. right. reflexivity.
  - destruct (float_of_str s); [discriminate | ].
    intros [= <-]. left. reflexivity.
  - discriminate.
Qed.

(** C7, as the code has it.  [calculate_bmi] returns its error value [None]
    exactly when the weight or the height is not numeric, or when the square
    of the height is zero.  It checks no range: whenever both are numeric and
    the square of the height is computed and is not zero, it returns the
    weight divided by that square, rounded to two decimals, whatever the sign
    and the size of the two numbers. *)
Theorem calculate_bmi_none_iff (weight height : value) :
  (calculate_bmi weight height = Return PyNone <->
   py_float weight = Raise ValueError \/
   (exists w, py_float weight = Return w /\ py_float height = Raise ValueError) \/
   (exists w h h2,
      py_float weight = Return w /\ py_float height = Return h /\
      float_pow_2 h = Return h2 /\ (h2 =? 0)%float = true)) /\
  (forall w h h2,
     py_float weight = Return w -> py_float height = Return h ->
     float_pow_2 h = Return h2 -> (h2 =? 0)%float = false ->
     calculate_bmi weight height = Return (PyFloat (py_round (w / h2) 2))).
Proof.
  unfold calculate_bmi, calculate_bmi_body, bind, float_truediv. split.
  - split.
    + destruct (py_float weight) as [w | ew] eqn:Ew.
      * destruct (py_float height) as [h | eh] eqn:Eh.
        -- destruct (float_pow_2 h) as [h2 | e2] eqn:E2.
           ++ destruct (h2 =? 0)%float eqn:Ez; [ | discriminate].
              intros _. right. right. exists w, h, h2.
              repeat split; assumption.
           ++ rewrite (float_pow_2_raises _ _ E2). discriminate.
        -- destruct (py_float_raises _ _ Eh) as [-> | ->]; [ | discriminate].
           intros _. right. left. exists w. split; reflexivity.
      * destruct (py_float_raises _ _ Ew) as [-> | ->]; [ | discriminate].
        intros _. left. reflexivity.
    + intros [Hw | [(w & Hw & Hh) | (w & h & h2 & Hw & Hh & H2 & Hz)]].
      * rewrite Hw. reflexivity.
      * rewrite Hw, Hh. reflexivity.
      * rewrite Hw, Hh, H2, Hz. reflexivity.
  - intros w h h2 Hw Hh H2 Hz. rewrite Hw, Hh, H2, Hz. reflexivity.
Qed.

End CalculatorFacts.

(** ** The db monad *)

Module DbFacts.

Lemma db_bind_return {A B : Type} (m : db A) (k : A -> db B) (w w' : world) (b : B) :
  db_bind m k w = (Return b, w') ->
  exists a w1, m w = (Return a, w1) /\ k a w1 = (Return b, w').
Proof.
  unfold db_bind. destruct (m w) as [[a | e] w1]; [ | discriminate].
  intros H. exists a, w1. split; [reflexivity | exact H].
Qed.

Lemma db_bind_step {A B : Type} (m : db A) (k : A -> db B) (w w1 : world) (a : A) :
  m w = (Return a, w1) -> db_bind m k w = k a w1.
Proof. unfold db_bind. intros ->. reflexivity. Qed.

Lemma db_bind_raise {A B : Type} (m : db A) (k : A -> db B) (w w1 : world) (e : exn) :
  m w = (Raise e, w1) -> db_bind m k w = (Raise e, w1).
Proof. unfold db_bind. intros ->. reflexivity. Qed.

Lemma except_sqlite3_world {A : Type} (body : db A) (default : A) (w : world) :
  snd (except_sqlite3 body default w) = snd (body w).
Proof.
  unfold except_sqlite3.
  destruct (body w) as [[a | [ | | | | e]] w']; reflexivity.
Qed.

Lemma except_sqlite3_return {A : Type} (body : db A) (default : A) (w w' : world) (a : A) :
  body w = (Return a, w') -> except_sqlite3 body default w = (Return a, w').
Proof. unfold except_sqlite3. intros ->. reflexivity. Qed.

Lemma except_sqlite3_caught {A : Type} (body : db A) (default : A) (w w' : world)
    (e : sqlite_error) :
  body w = (Raise (Sqlite3Error e), w') ->
  except_sqlite3 body default w = (Return default, w').
Proof. unfold except_sqlite3. intros ->. reflexivity. Qed.

(** *** Growth of the table *)

Lemma grows_ret {A : Type} (a : A) : grows 0 (db_ret a).
Proof. intros w. exists []. simpl. rewrite app_nil_r. auto. Qed.

Lemma grows_lift {A : Type} (r : result A) : grows 0 (db_lift r).
Proof. intros w. exists []. simpl. rewrite app_nil_r. auto. Qed.

Lemma grows_weaken {A : Type} (n n' : nat) (m : db A) :
  (n <= n')%nat -> grows n m -> grows n' m.
Proof.
  intros Hle H w. destruct (H w) as (new & Hnew & Hlen).
  exists new. split; [exact Hnew | lia].
Qed.

Lemma grows_bind {A B : Type} (n n' : nat) (m : db A) (k : A -> db B) :
  grows n m -> (forall a, grows n' (k a)) -> grows (n + n') (db_bind m k).
Proof.
  intros Hm Hk w. unfold db_bind.
  destruct (Hm w) as (new & Hnew & Hlen).
  destruct (m w) as [[a | e] w1]; simpl in Hnew.
  - destruct (Hk a w1) as (new' & Hnew' & Hlen').
    exists (new ++ new'). rewrite Hnew', Hnew, app_assoc, length_app.
    split; [reflexivity | lia].
  - exists new. simpl. split; [exact Hnew | lia].
Qed.

Lemma grows_except {A : Type} (n : nat) (body : db A) (default : A) :
  grows n body -> grows n (except_sqlite3 body default).
Proof. intros H w. rewrite except_sqlite3_world. apply H. Qed.

End DbFacts.

(** ** The driver *)

Module DriverFacts.
Import DbFacts.

Lemma driver_call_table (w : world) : table (snd (Sqlite3.driver_call w)) = table w.
Proof.
  unfold Sqlite3.driver_call. destruct (faults w) as [ | [e | ] rest]; reflexivity.
Qed.

Lemma driver_call_outcome (w : world) :
  fst (Sqlite3.driver_call w) = Return tt \/
  exists e, fst (Sqlite3.driver_call w) = Raise (Sqlite3Error e).
Proof.
  unfold Sqlite3.driver_call. destruct (faults w) as [ | [e | ] rest]; simpl; eauto.
Qed.

(** A call that the world lets through. *)
Lemma driver_call_quiet (n : nat) (w : world) :
  quiet (S n) w = true ->
  exists w', Sqlite3.driver_call w = (Return tt, w') /\
    table w' = table w /\ quiet n w' = true.
Proof.
  unfold quiet, Sqlite3.driver_call.
  destruct (faults w) as [ | [e | ] rest] eqn:Ef; simpl.
  - intros _. exists w. rewrite Ef. destruct n; auto.
  - discriminate.
  - intros H. eexists. split; [reflexivity | ]. simpl. auto.
Qed.

(** A call that the world fails. *)
Lemma driver_call_fault (w : world) :
  quiet 1 w = false ->
  exists e w', Sqlite3.driver_call w = (Raise (Sqlite3Error e), w') /\
    table w' = table w.
Proof.
  unfold quiet, Sqlite3.driver_call.
  destruct (faults w) as [ | [e | ] rest] eqn:Ef; simpl; try discriminate.
  intros _. eexists _, _. split; reflexivity.
Qed.

Lemma quiet_S (n : nat) (w : world) :
  quiet (S n) w = true -> quiet 1 w = true.
Proof.
  unfold quiet. destruct (faults w) as [ | [e | ] rest]; simpl; auto.
Qed.

Lemma grows_driver_call : grows 0 Sqlite3.driver_call.
Proof.
  intros w. exists []. unfold stored_rows. rewrite driver_call_table, app_nil_r. auto.
Qed.

Lemma grows_execute_create_table : grows 0 Sqlite3.execute_create_table.
Proof.
  unfold Sqlite3.execute_create_table.
  apply (grows_bind 0 0); [apply grows_driver_call | ].
  intros _ w. exists []. simpl. rewrite app_nil_r. auto.
Qed.

Lemma grows_commit_insert (pending : row) : grows 1 (Sqlite3.commit_insert pending).
Proof.
  unfold Sqlite3.commit_insert, Sqlite3.commit.
  apply (grows_bind 0 1); [apply grows_driver_call | ].
  intros _ w. exists [pending]. simpl. auto.
Qed.

Lemma grows_execute_select {A : Type} (query : list row -> list A) :
  grows 0 (Sqlite3.execute_select query).
Proof.
  unfold Sqlite3.execute_select.
  apply (grows_bind 0 0); [apply grows_driver_call | ].
  intros _ w. exists []. rewrite app_nil_r. destruct (table w); auto.
Qed.

Lemma grows_fetchall {A : Type} (cursor : list A) : grows 0 (Sqlite3.fetchall cursor).
Proof.
  unfold Sqlite3.fetchall.
  apply (grows_bind 0 0); [apply grows_driver_call | intros _; apply grows_ret].
Qed.

Section Insert.

Context {rt : Runtime}.

Lemma grows_execute_insert (username : string) (weight height bmi : value)
    (category timestamp : string) :
  grows 0 (Sqlite3.execute_insert username weight height bmi category timestamp).
Proof.
  unfold Sqlite3.execute_insert.
  apply (grows_bind 0 0); [apply grows_driver_call | ].
  intros _ w. exists []. rewrite app_nil_r.
  destruct (table w); [ | auto].
  destruct (Sqlite3.real_column weight), (Sqlite3.real_column height),
    (Sqlite3.real_column bmi); auto.
Qed.

(** A successful [INSERT]: the table is there, the three numbers are
    storable, and the pending row carries what the columns keep of them. *)
Lemma execute_insert_return (username : string) (weight height bmi : value)
    (category timestamp : string) (w w' : world) (pending : row) :
  Sqlite3.execute_insert username weight height bmi category timestamp w
    = (Return pending, w') ->
  table w' = table w /\
  exists rows,
    table w = Some rows /\
    Sqlite3.real_column weight = Some (row_weight pending) /\
    Sqlite3.real_column height = Some (row_height pending) /\
    Sqlite3.real_column bmi = Some (row_bmi pending) /\
    row_username pending = username /\
    row_category pending = category /\
    row_timestamp pending = timestamp /\
    row_id pending = Sqlite3.next_id rows.
Proof.
  unfold Sqlite3.execute_insert. intros H.
  apply db_bind_return in H. destruct H as ([] & w1 & Hcall & H).
  pose proof (driver_call_table w) as Ht. rewrite Hcall in Ht. simpl in Ht.
  rewrite Ht in H.
  destruct (table w) as [rows | ]; [ | discriminate].
  destruct (Sqlite3.real_column weight) as [wv | ]; [ | discriminate].
  destruct (Sqlite3.real_column height) as [hv | ]; [ | discriminate].
  destruct (Sqlite3.real_column bmi) as [bv | ]; [ | discriminate].
  injection H as <- <-. split; [exact Ht | ].
  exists rows. simpl. repeat split; reflexivity.
Qed.

End Insert.

Lemma commit_insert_return (pending : row) (w w' : world) :
  Sqlite3.commit_insert pending w = (Return tt, w') ->
  table w' = Some (stored_rows w ++ [pending]).
Proof.
  unfold Sqlite3.commit_insert, Sqlite3.commit. intros H.
  apply db_bind_return in H. destruct H as ([] & w1 & Hcall & H).
  pose proof (driver_call_table w) as Ht. rewrite Hcall in Ht. simpl in Ht.
  injection H as <-. simpl. unfold stored_rows. rewrite Ht. reflexivity.
Qed.

Lemma driver_call_return (w w' : world) (u : unit) :
  Sqlite3.driver_call w = (Return u, w') -> table w' = table w.
Proof.
  intros H. pose proof (driver_call_table w) as Ht. rewrite H in Ht. exact Ht.
Qed.

End DriverFacts.

(** ** ORDER BY timestamp DESC *)

Module OrderFacts.

Lemma string_leb_trans (a b c : string) :
  String.leb a b = true -> String.leb b c = true -> String.leb a c = true.
Proof.
  unfold String.leb. revert b c.
  induction a as [ | x a IH]; intros [ | y b] [ | z c]; simpl;
    try congruence.
  unfold Ascii.compare.
  destruct (N.compare_spec (N_of_ascii x) (N_of_ascii y)) as [Hxy | Hxy | Hxy],
    (N.compare_spec (N_of_ascii y) (N_of_ascii z)) as [Hyz | Hyz | Hyz],
    (N.compare_spec (N_of_ascii x) (N_of_ascii z)) as [Hxz | Hxz | Hxz];
    try congruence; try lia.
  apply IH.
Qed.

Lemma insert_desc_perm (r : row) (l : list row) :
  Permutation (Sqlite3.insert_desc r l) (r :: l).
Proof.
  induction l as [ | x l IH]; simpl.
  - apply Permutation_refl.
  - destruct (String.leb (row_timestamp x) (row_timestamp r)).
    + apply Permutation_refl.
    + eapply perm_trans; [apply perm_skip, IH | apply perm_swap].
Qed.

Lemma order_by_timestamp_desc_perm (l : list row) :
  Permutation (Sqlite3.order_by_timestamp_desc l) l.
Proof.
  induction l as [ | x l IH]; simpl.
  - apply perm_nil.
  - eapply perm_trans; [apply insert_desc_perm | apply perm_skip, IH].
Qed.

Lemma insert_desc_sorted (r : row) (l : list row) :
  StronglySorted row_newer_eq l ->
  StronglySorted row_newer_eq (Sqlite3.insert_desc r l).
Proof.
  induction 1 as [ | x l Hsorted IH Hall]; simpl.
  - constructor; constructor.
  - destruct (String.leb (row_timestamp x) (row_timestamp r)) eqn:E.
    + constructor; [constructor; assumption | ].
      constructor; [exact E | ].
      eapply Forall_impl; [ | exact Hall].
      intros y Hy. unfold row_newer_eq in *.
      eapply string_leb_trans; eassumption.
    + constructor; [exact IH | ].
      eapply Permutation_Forall;
        [apply Permutation_sym, insert_desc_perm | ].
      constructor; [ | exact Hall].
      unfold row_newer_eq.
      destruct (String.leb_total (row_timestamp r) (row_timestamp x)) as [H | H];
        [exact H | congruence].
Qed.

Lemma order_by_timestamp_desc_sorted (l : list row) :
  StronglySorted row_newer_eq (Sqlite3.order_by_timestamp_desc l).
Proof.
  induction l as [ | x l IH]; simpl.
  - constructor.
  - apply insert_desc_sorted, IH.
Qed.

Lemma newest_first_map (l : list row) :
  StronglySorted row_newer_eq l -> newest_first (map record_of_row l).
Proof.
  unfold newest_first. induction 1 as [ | x l Hsorted IH Hall]; simpl.
  - constructor.
  - constructor; [exact IH | ].
    apply Forall_map. exact Hall.
Qed.

Lemma select_history_newest_first (username : string) (rows : list row) :
  newest_first (Sqlite3.select_history username rows).
Proof.
  apply newest_first_map, order_by_timestamp_desc_sorted.
Qed.

Lemma select_history_perm (username : string) (rows : list row) :
  Permutation (Sqlite3.select_history username rows) (records_of username rows).
Proof.
  apply Permutation_map, order_by_timestamp_desc_perm.
Qed.

End OrderFacts.

(** ** The store operations *)

Section StoreFacts.

Context {rt : Runtime}.

Import DbFacts DriverFacts OrderFacts.

Lemma grows_init_database : grows 0 init_database.
Proof.
  apply grows_except. unfold init_database_body.
  apply (grows_bind 0 0); [apply grows_driver_call | intros _].
  apply (grows_bind 0 0); [apply grows_execute_create_table | intros _].
  apply (grows_bind 0 0); [apply grows_driver_call | intros _].
  apply (grows_bind 0 0); [apply grows_driver_call | intros _].
  apply grows_ret.
Qed.

Lemma grows_save_to_database (username : string) (weight height bmi : value)
    (category timestamp : string) :
  grows 1 (save_to_database username weight height bmi category timestamp).
Proof.
  apply grows_except. unfold save_to_database_body.
  apply (grows_bind 0 1); [apply grows_driver_call | intros _].
  apply (grows_bind 0 1); [apply grows_execute_insert | intros pending].
  apply (grows_bind 1 0); [apply grows_commit_insert | intros _].
  apply (grows_bind 0 0); [apply grows_driver_call | intros _].
  apply grows_ret.
Qed.

Lemma grows_get_user_history (username : string) :
  grows 0 (get_user_history username).
Proof.
  apply grows_except. unfold get_user_history_body.
  apply (grows_bind 0 0); [apply grows_driver_call | intros _].
  apply (grows_bind 0 0); [apply grows_execute_select | intros cursor].
  apply (grows_bind 0 0); [apply grows_fetchall | intros records].
  apply (grows_bind 0 0); [apply grows_driver_call | intros _].
  apply grows_ret.
Qed.

Lemma grows_get_all_users : grows 0 get_all_users.
Proof.
  apply grows_except. unfold get_all_users_body.
  apply (grows_bind 0 0); [apply grows_driver_call | intros _].
  apply (grows_bind 0 0); [apply grows_execute_select | intros cursor].
  apply (grows_bind 0 0); [apply grows_fetchall | intros users].
  apply (grows_bind 0 0); [apply grows_driver_call | intros _].
  apply grows_ret.
Qed.

Lemma grows_calculate_bmi_gui (username weight height timestamp : string) :
  grows 1 (calculate_bmi_gui username weight height timestamp).
Proof.
  unfold calculate_bmi_gui.
  destruct (username =? "")%string;
    [apply (grows_weaken 0 1); [lia | apply grows_ret] | ].
  apply (grows_bind 0 1); [apply grows_lift | intros [[] message]].
  - apply (grows_bind 0 1); [apply grows_lift | intros bmi].
    assert (grows 1
      (db_bind (db_lift (classify_bmi bmi)) (fun category =>
         db_bind (save_to_database username (PyStr weight) (PyStr height)
                    bmi category timestamp) (fun success =>
           db_bind get_all_users (fun _ =>
             db_bind get_all_users (fun _ =>
               db_ret (Displayed username weight height bmi category success))))))) as H.
    { apply (grows_bind 0 1); [apply grows_lift | intros category].
      apply (grows_bind 1 0); [apply grows_save_to_database | intros success].
      apply (grows_bind 0 0); [apply grows_get_all_users | intros _].
      apply (grows_bind 0 0); [apply grows_get_all_users | intros _].
      apply grows_ret. }
    destruct bmi; [apply (grows_weaken 0 1); [lia | apply grows_ret] | exact H ..].
  - apply (grows_weaken 0 1); [lia | apply grows_ret].
Qed.

(** C8. The store is append-only: whatever operation runs, and whether or not
    the driver fails on the way, the rows stored before are still there, at
    the same places and unchanged; at most one row is added behind them. *)
Theorem store_is_append_only (op : store_op) (w : world) :
  exists new,
    stored_rows (world_after op w) = stored_rows w ++ new /\
    (length new <= 1)%nat /\
    (forall i r, nth_error (stored_rows w) i = Some r ->
                 nth_error (stored_rows (world_after op w)) i = Some r).
Proof.
  assert (exists new,
            stored_rows (world_after op w) = stored_rows w ++ new /\
            (length new <= 1)%nat) as (new & Hnew & Hlen).
  { destruct op; simpl.
    - destruct (grows_init_database w) as (new & Hnew & Hlen).
      exists new. split; [exact Hnew | lia].
    - apply grows_save_to_database.
    - destruct (grows_get_user_history username w) as (new & Hnew & Hlen).
      exists new. split; [exact Hnew | lia].
    - destruct (grows_get_all_users w) as (new & Hnew & Hlen).
      exists new. split; [exact Hnew | lia].
    - apply grows_calculate_bmi_gui. }
  exists new. repeat split; try assumption.
  intros i r Hi. rewrite Hnew, nth_error_app1; [exact Hi | ].
  apply nth_error_Some. congruence.
Qed.

(** A save that reports success has put one row behind the others. *)
Lemma save_to_database_true (username : string) (weight height bmi : value)
    (category timestamp : string) (w w' : world) :
  save_to_database username weight height bmi category timestamp w
    = (Return true, w') ->
  exists pending,
    table w' = Some (stored_rows w ++ [pending]) /\
    Sqlite3.real_column weight = Some (row_weight pending) /\
    Sqlite3.real_column height = Some (row_height pending) /\
    Sqlite3.real_column bmi = Some (row_bmi pending) /\
    row_username pending = username /\
    row_category pending = category /\
    row_timestamp pending = timestamp.
Proof.
  unfold save_to_database, except_sqlite3.
  destruct (save_to_database_body username weight height bmi category timestamp w)
    as [[b | e] w1] eqn:Eb.
  - intros H. injection H as -> ->.
    unfold save_to_database_body in Eb.
    apply db_bind_return in Eb. destruct Eb as ([] & w2 & Hconnect & Eb).
    apply db_bind_return in Eb. destruct Eb as (pending & w3 & Hinsert & Eb).
    apply db_bind_return in Eb. destruct Eb as ([] & w4 & Hcommit & Eb).
    apply db_bind_return in Eb. destruct Eb as ([] & w5 & Hclose & Eb).
    injection Eb as <-.
    apply driver_call_return in Hconnect, Hclose.
    apply execute_insert_return in Hinsert.
    destruct Hinsert as (Ht & rows & _ & Hw & Hh & Hb & Hu & Hc & Hts & _).
    apply commit_insert_return in Hcommit.
    exists pending. repeat split; try assumption.
    rewrite Hclose, Hcommit. unfold stored_rows. rewrite Ht, Hconnect. reflexivity.
  - destruct e; discriminate.
Qed.

(** A read that meets no fault returns what the query selects. *)
Lemma get_user_history_quiet (username : string) (w : world) (rows : list row) :
  table w = Some rows -> quiet 4 w = true ->
  exists w',
    get_user_history username w
      = (Return (Sqlite3.select_history username rows), w') /\
    table w' = table w.
Proof.
  intros Ht Hq.
  destruct (driver_call_quiet 3 w Hq) as (w1 & H1 & Ht1 & Hq1).
  destruct (driver_call_quiet 2 w1 Hq1) as (w2 & H2 & Ht2 & Hq2).
  destruct (driver_call_quiet 1 w2 Hq2) as (w3 & H3 & Ht3 & Hq3).
  destruct (driver_call_quiet 0 w3 Hq3) as (w4 & H4 & Ht4 & _).
  exists w4. split; [ | congruence].
  apply except_sqlite3_return. unfold get_user_history_body.
  unfold Sqlite3.connect, Sqlite3.close, Sqlite3.execute_select, Sqlite3.fetchall.
  rewrite (db_bind_step _ _ w w1 tt H1).
  rewrite (db_bind_step _ _ w1 w2 (Sqlite3.select_history username rows)).
  2: { rewrite (db_bind_step _ _ w1 w2 tt H2). rewrite Ht2, Ht1, Ht. reflexivity. }
  rewrite (db_bind_step _ _ w2 w3 (Sqlite3.select_history username rows)).
  2: { rewrite (db_bind_step _ _ w2 w3 tt H3). reflexivity. }
  rewrite (db_bind_step _ _ w3 w4 tt H4). reflexivity.
Qed.


(** C6. For every username, a history read that meets no database error
    returns exactly the records stored for that username, each once, ordered
    with the newest timestamp first. *)
Theorem get_user_history_newest_first (username : string) (w : world)
    (rows : list row) :
  table w = Some rows -> quiet 4 w = true ->
  exists records w',
    get_user_history username w = (Return records, w') /\
    Permutation records (records_of username rows) /\
    newest_first records.
Proof.
  intros Ht Hq.
  destruct (get_user_history_quiet username w rows Ht Hq) as (w' & H & _).
  exists (Sqlite3.select_history username rows), w'.
  split; [exact H | ].
  split; [apply select_history_perm | apply select_history_newest_first].
Qed.

(** What a REAL column returns of a float: the float, a zero as 0.0. *)
Lemma real_column_float (f : float) (v : value) :
  Sqlite3.real_column (PyFloat f) = Some v ->
  v = PyFloat (if (f =? 0)%float then 0%float else f).
Proof.
  simpl. destruct (is_nan f); [discriminate | ]. intros [= <-]. reflexivity.
Qed.

(** What a REAL column returns of a text: the number SQLite reads in it, or
    the text itself. *)
Lemma real_column_text (s : string) (v : value) :
  Sqlite3.real_column (PyStr s) = Some v ->
  match sqlite_real_of_text s with
  | Some r => v = PyFloat (if (r =? 0)%float then 0%float else r)
  | None => v = PyStr s
  end.
Proof.
  simpl. destruct (sqlite_real_of_text s); intros [= <-]; reflexivity.
Qed.

(** A read runs into a database error exactly when [read_fails] says so. *)
Lemma get_user_history_body_raises (username : string) (w : world) :
  read_fails w <->
  exists e w', get_user_history_body username w = (Raise (Sqlite3Error e), w').
Proof.
  unfold read_fails, quiet. destruct w as [t f]. simpl.
  destruct t as [rows | ];
    destruct f as [ | [e1 | ] [ | [e2 | ] [ | [e3 | ] [ | [e4 | ] rest]]]];
    simpl; split;
    try (intros _; eexists _, _; reflexivity);
    try (intros [H | H]; discriminate H);
    try (intros (e & w' & H); discriminate H);
    try (intros _; left; reflexivity);
    try (intros _; right; reflexivity).
Qed.

(** C10. When a database error occurs during a read, [get_user_history] and
    [get_all_users] each return an empty list; nothing is raised. *)
Theorem read_failure_gives_empty_list (w : world) :
  read_fails w ->
  (forall username, exists w', get_user_history username w = (Return [], w')) /\
  (exists w', get_all_users w = (Return [], w')).
Proof.
  unfold read_fails, quiet. destruct w as [t f]. simpl.
  destruct t as [rows | ];
    destruct f as [ | [e1 | ] [ | [e2 | ] [ | [e3 | ] [ | [e4 | ] rest]]]];
    simpl; intros [H | H]; try discriminate H;
    (split; [intros username | ]; eexists; reflexivity).
Qed.

(** The two reads never raise. *)
Lemma reads_never_raise (w : world) :
  (forall username, exists records w',
     get_user_history username w = (Return records, w')) /\
  (exists users w', get_all_users w = (Return users, w')).
Proof.
  destruct w as [t f].
  destruct t as [rows | ];
    destruct f as [ | [e1 | ] [ | [e2 | ] [ | [e3 | ] [ | [e4 | ] rest]]]];
    (split; [intros username | ]; eexists _, _; reflexivity).
Qed.

End StoreFacts.

(** ** Computations that store nothing *)

Section GuiFacts.

Context {rt : Runtime}.

Import DbFacts DriverFacts FloatFacts.

Lemma grows_0_keeps {A : Type} (m : db A) (w : world) :
  grows 0 m -> stored_rows (snd (m w)) = stored_rows w.
Proof.
  intros H. destruct (H w) as (new & Hnew & Hlen).
  destruct new; [ | simpl in Hlen; lia].
  rewrite Hnew. apply app_nil_r.
Qed.

End GuiFacts.

(** ** The program at concrete inputs *)

Section Runs.

Import Example.

#[local] Existing Instance AsciiRuntime.runtime.

Local Open Scope string_scope.

(** C4. For weight 70 and height 1.75 the computed BMI is 22.86 and its
    category is "Normal weight"; for weight 50 and height 1.8 the computed BMI
    is 15.43 and its category is "Underweight".  The inputs are taken as the
    calculator tab passes them, as text, and as floats. *)
Theorem bmi_of_the_two_examples :
  calculate_bmi (PyStr "70") (PyStr "1.75") = Return (PyFloat 22.86) /\
  calculate_bmi (PyFloat 70) (PyFloat 1.75) = Return (PyFloat 22.86) /\
  classify_bmi (PyFloat 22.86) = Return "Normal weight" /\
  calculate_bmi (PyStr "50") (PyStr "1.8") = Return (PyFloat 15.43) /\
  calculate_bmi (PyFloat 50) (PyFloat 1.8) = Return (PyFloat 15.43) /\
  classify_bmi (PyFloat 15.43) = Return "Underweight".
Proof. repeat split; vm_compute; reflexivity. Qed.

(** C3 fails on the code.  The text [nan] reads as a float that is not
    positive, and [validate_input] accepts it: a NaN makes each of the three
    comparisons false. *)
Theorem validate_input_accepts_nan :
  float_of_str "nan" = Some nan /\
  (0 <? nan)%float = false /\
  validate_input (PyStr "nan") (PyStr "1.75") = Return (true, "Valid input") /\
  validate_input (PyFloat nan) (PyFloat 1.75) = Return (true, "Valid input").
Proof. repeat split; vm_compute; reflexivity. Qed.

(** What the calculator tab then shows: a BMI that is not a number, filed as
    "Obese", and a record that the table turns down. *)
Example nan_in_the_calculator_tab :
  calculate_bmi_gui "alice" "nan" "1.75" monday fresh
    = (Return (Displayed "alice" "nan" "1.75" (PyFloat nan) "Obese" false), fresh).
Proof. vm_compute. reflexivity. Qed.

(** C7 fails as stated: inputs that validation rejects as too high or as
    negative still get a BMI from [calculate_bmi]. *)
Lemma calculate_bmi_checks_no_range :
  validate_input (PyStr "500") (PyStr "1.8")
    = Return (false, "Weight seems too high. Please check your input.") /\
  calculate_bmi (PyStr "500") (PyStr "1.8") = Return (PyFloat 154.32) /\
  validate_input (PyStr "-70") (PyStr "1.75")
    = Return (false, "Weight and height must be positive numbers") /\
  calculate_bmi (PyStr "-70") (PyStr "1.75") = Return (PyFloat (-22.86)).
Proof. repeat split; vm_compute; reflexivity. Qed.

(** C9 fails as stated: the height 1e-200 passes validation, its square
    underflows to zero, and [calculate_bmi] returns [None]. *)
Lemma validated_height_underflows :
  validate_input (PyStr "70") (PyStr "1e-200") = Return (true, "Valid input") /\
  calculate_bmi (PyStr "70") (PyStr "1e-200") = Return PyNone.
Proof. repeat split; vm_compute; reflexivity. Qed.

(** [calculate_bmi_none_iff] at a weight above the bound of validation. *)
Lemma calculate_bmi_none_iff_witness :
  (calculate_bmi (PyStr "500") (PyStr "abc") = Return PyNone) /\
  (calculate_bmi (PyStr "500") (PyStr "1.8")
     = Return (PyFloat (py_round (500 / 3.24) 2))).
Proof.
  split.
  - apply (proj1 (calculate_bmi_none_iff (PyStr "500") (PyStr "abc"))).
    right. left. exists 500%float. split; vm_compute; reflexivity.
  - apply (proj2 (calculate_bmi_none_iff (PyStr "500") (PyStr "1.8")) 500 1.8 3.24)%float;
      vm_compute; reflexivity.
Defined.

(** [calculate_bmi_after_validation] at weight 70, height 1.75. *)
Lemma calculate_bmi_after_validation_witness :
  validate_input (PyStr "70") (PyStr "1.75") = Return (true, "Valid input") /\
  exists w h h2,
    py_float (PyStr "70") = Return w /\ py_float (PyStr "1.75") = Return h /\
    float_pow_2 h = Return h2 /\
    calculate_bmi (PyStr "70") (PyStr "1.75") =
      if (h2 =? 0)%float then Return PyNone
      else Return (PyFloat (py_round (w / h2) 2)).
Proof.
  assert (validate_input (PyStr "70") (PyStr "1.75") = Return (true, "Valid input"))
    as H by (vm_compute; reflexivity).
  split; [exact H | ].
  apply (calculate_bmi_after_validation (PyStr "70") (PyStr "1.75") "Valid input" H).
Defined.

(** C5 fails as stated: the calculator tab writes the weight and the height
    as the texts entered, and the history returns numbers in their place. *)
Lemma round_trip_returns_numbers_for_texts :
  fst (save_to_database "alice" (PyStr "70") (PyStr "1.75") (PyFloat 22.86)
         "Normal weight" monday fresh) = Return true /\
  fst (get_user_history "alice"
         (snd (save_to_database "alice" (PyStr "70") (PyStr "1.75") (PyFloat 22.86)
                 "Normal weight" monday fresh)))
    = Return [ (monday, PyFloat 70, PyFloat 1.75, PyFloat 22.86, "Normal weight") ] /\
  ~ In (monday, PyStr "70", PyStr "1.75", PyFloat 22.86, "Normal weight")
       [ (monday, PyFloat 70, PyFloat 1.75, PyFloat 22.86, "Normal weight") ].
Proof.
  split; [vm_compute; reflexivity | ]. split; [vm_compute; reflexivity | ].
  intros [H | []]. discriminate H.
Qed.

(** [get_user_history_newest_first] at a table of three rows. *)
Lemma get_user_history_newest_first_witness :
  table populated = Some three_rows /\ quiet 4 populated = true /\
  exists records w',
    get_user_history "alice" populated = (Return records, w') /\
    Permutation records (records_of "alice" three_rows) /\
    newest_first records.
Proof.
  split; [reflexivity | ]. split; [reflexivity | ].
  apply (get_user_history_newest_first "alice" populated three_rows);
    reflexivity.
Defined.

(** What the read of that table returns: the newer of the two records of the
    user first, and nothing of the other user. *)
Example history_of_alice :
  get_user_history "alice" populated
    = (Return [ (tuesday, PyFloat 71, PyFloat 1.75, PyFloat 23.18, "Normal weight");
                (monday, PyFloat 70, PyFloat 1.75, PyFloat 22.86, "Normal weight") ],
       populated).
Proof. vm_compute. reflexivity. Qed.

(** [read_failure_gives_empty_list] at a database without its table. *)
Lemma read_failure_gives_empty_list_witness :
  read_fails broken /\
  (forall username, exists w', get_user_history username broken = (Return [], w')) /\
  (exists w', get_all_users broken = (Return [], w')).
Proof.
  assert (read_fails broken) as H by (left; reflexivity).
  split; [exact H | ].
  apply (read_failure_gives_empty_list broken H).
Defined.

End Runs.

(** ** More on the store operations *)

(** Case analysis on what the driver does in the next four calls. *)
Ltac destruct_faults f :=
  destruct f as [ | [? | ] [ | [? | ] [ | [? | ] [ | [? | ] ?]]]].

Section StoreWorlds.

Context {rt : Runtime}.

Import DbFacts DriverFacts OrderFacts.

Lemma execute_insert_table (username : string) (weight height bmi : value)
    (category timestamp : string) (w : world) :
  table (snd (Sqlite3.execute_insert username weight height bmi category timestamp w))
    = table w.
Proof.
  unfold Sqlite3.execute_insert, db_bind.
  pose proof (driver_call_table w) as Ht.
  destruct (Sqlite3.driver_call w) as [[[] | e] w1]; simpl in Ht; [ | exact Ht].
  destruct (table w1) as [rows | ] eqn:E; [ | simpl; congruence].
  destruct (Sqlite3.real_column weight), (Sqlite3.real_column height),
    (Sqlite3.real_column bmi); simpl; congruence.
Qed.

Lemma commit_insert_raise (pending : row) (w w' : world) (e : exn) :
  Sqlite3.commit_insert pending w = (Raise e, w') -> table w' = table w.
Proof.
  unfold Sqlite3.commit_insert, Sqlite3.commit, db_bind.
  pose proof (driver_call_table w) as Ht.
  destruct (Sqlite3.driver_call w) as [[[] | e'] w1]; simpl in Ht.
  - discriminate.
  - intros H. injection H as _ <-. exact Ht.
Qed.

Lemma driver_call_eq (w w' : world) (r : result unit) :
  Sqlite3.driver_call w = (r, w') ->
  table w' = table w /\ (r = Return tt \/ exists e, r = Raise (Sqlite3Error e)).
Proof.
  intros H. pose proof (driver_call_table w) as Ht.
  pose proof (driver_call_outcome w) as Ho.
  rewrite H in Ht, Ho. simpl in Ht, Ho. auto.
Qed.

Lemma execute_insert_raise (username : string) (weight height bmi : value)
    (category timestamp : string) (w w' : world) (e : exn) :
  Sqlite3.execute_insert username weight height bmi category timestamp w
    = (Raise e, w') ->
  table w' = table w /\ exists se, e = Sqlite3Error se.
Proof.
  intros H.
  pose proof (execute_insert_table username weight height bmi category timestamp w)
    as Ht.
  rewrite H in Ht. split; [exact Ht | ].
  unfold Sqlite3.execute_insert in H.
  destruct (Sqlite3.driver_call w) as [[[] | e1] w1] eqn:H1.
  - rewrite (db_bind_step _ _ _ _ _ H1) in H.
    destruct (table w1); [ | injection H as <- _; eauto].
    destruct (Sqlite3.real_column weight), (Sqlite3.real_column height),
      (Sqlite3.real_column bmi); try discriminate; injection H as <- _; eauto.
  - rewrite (db_bind_raise _ _ _ _ _ H1) in H. injection H as <- _.
    apply driver_call_eq in H1. destruct H1 as [_ [H1 | [se H1]]];
      [discriminate | injection H1 as ->; eauto].
Qed.

(** The outcomes of the [try] block of a save: it completes with the new row
    at the end of the table, numbered past every id in use; or a database
    error stops it, before the commit with the table as it was, after the
    commit with the new row in place. *)
Lemma save_to_database_body_cases (username : string) (weight height bmi : value)
    (category timestamp : string) (w : world) :
  exists r w',
    save_to_database_body username weight height bmi category timestamp w = (r, w') /\
    ((exists se, r = Raise (Sqlite3Error se)) /\ table w' = table w \/
     exists pending,
       (r = Return true \/ exists se, r = Raise (Sqlite3Error se)) /\
       table w <> None /\
       table w' = Some (stored_rows w ++ [pending]) /\
       row_username pending = username /\
       row_id pending = Sqlite3.next_id (stored_rows w) /\
       Sqlite3.real_column weight = Some (row_weight pending) /\
       Sqlite3.real_column height = Some (row_height pending) /\
       Sqlite3.real_column bmi = Some (row_bmi pending) /\
       row_category pending = category /\
       row_timestamp pending = timestamp).
Proof.
  unfold save_to_database_body, Sqlite3.connect, Sqlite3.close.
  destruct (Sqlite3.driver_call w) as [[[] | e1] w1] eqn:H1.
  2: { rewrite (db_bind_raise _ _ _ _ _ H1). eexists _, _. split; [reflexivity | ].
       apply driver_call_eq in H1. destruct H1 as [Ht [H1 | [se H1]]];
         [discriminate | ]. injection H1 as ->. left. eauto. }
  rewrite (db_bind_step _ _ _ _ _ H1).
  apply driver_call_eq in H1. destruct H1 as [Ht1 _].
  destruct (Sqlite3.execute_insert username weight height bmi category timestamp w1)
    as [[pending | e2] w2] eqn:H2.
  2: { rewrite (db_bind_raise _ _ _ _ _ H2). eexists _, _. split; [reflexivity | ].
       apply execute_insert_raise in H2. destruct H2 as [Ht2 [se ->]].
       left. split; [eauto | congruence]. }
  rewrite (db_bind_step _ _ _ _ _ H2).
  apply execute_insert_return in H2.
  destruct H2 as (Ht2 & rows & Hrows & Hcol & Hcolh & Hcolb & Hu & Hcat & Hts & Hid).
  assert (stored_rows w2 = stored_rows w /\ rows = stored_rows w) as [Hs ->].
  { unfold stored_rows. rewrite Ht2, <- Ht1, Hrows. auto. }
  destruct (Sqlite3.commit_insert pending w2) as [[[] | e3] w3] eqn:H3.
  2: { rewrite (db_bind_raise _ _ _ _ _ H3). eexists _, _. split; [reflexivity | ].
       pose proof (commit_insert_raise _ _ _ _ H3) as Ht3.
       unfold Sqlite3.commit_insert, Sqlite3.commit in H3.
       destruct (Sqlite3.driver_call w2) as [[[] | e] w2'] eqn:Hc.
       - rewrite (db_bind_step _ _ _ _ _ Hc) in H3. discriminate.
       - rewrite (db_bind_raise _ _ _ _ _ Hc) in H3. injection H3 as <- _.
         apply driver_call_eq in Hc. destruct Hc as [_ [Hc | [se Hc]]];
           [discriminate | ]. injection Hc as ->.
         left. split; [eauto | congruence]. }
  rewrite (db_bind_step _ _ _ _ _ H3).
  apply commit_insert_return in H3. rewrite Hs in H3.
  assert (table w <> None) as Hsome by congruence.
  destruct (Sqlite3.driver_call w3) as [[[] | e4] w4] eqn:H4.
  - rewrite (db_bind_step _ _ _ _ _ H4). eexists _, _. split; [reflexivity | ].
    apply driver_call_eq in H4. destruct H4 as [Ht4 _].
    right. exists pending. repeat split; auto; congruence.
  - rewrite (db_bind_raise _ _ _ _ _ H4). eexists _, _. split; [reflexivity | ].
    apply driver_call_eq in H4. destruct H4 as [Ht4 [H4 | [se H4]]];
      [discriminate | ]. injection H4 as ->.
    right. exists pending. repeat split; eauto; congruence.
Qed.

(** What a save leaves behind, whatever it reports: the table as it was, or
    the table with one new row at its end, numbered past every id in use. *)
Lemma save_to_database_world (username : string) (weight height bmi : value)
    (category timestamp : string) (w w' : world) :
  snd (save_to_database username weight height bmi category timestamp w) = w' ->
  table w' = table w \/
  exists pending,
    table w' = Some (stored_rows w ++ [pending]) /\
    row_username pending = username /\
    row_id pending = Sqlite3.next_id (stored_rows w) /\
    Sqlite3.real_column weight = Some (row_weight pending) /\
    Sqlite3.real_column height = Some (row_height pending) /\
    Sqlite3.real_column bmi = Some (row_bmi pending) /\
    row_category pending = category /\
    row_timestamp pending = timestamp /\
    table w <> None.
Proof.
  intros <-. unfold save_to_database. rewrite except_sqlite3_world.
  destruct (save_to_database_body_cases username weight height bmi category
              timestamp w)
    as (r & w' & -> &
        [[_ Ht] | (p & _ & Hsome & Ht & Hu & Hid & Hw & Hh & Hb & Hc & Hts)]);
    simpl; [left; exact Ht | right; exists p; repeat split; assumption].
Qed.

(** A save that reports success found the table in place. *)
Lemma save_to_database_true_table (username : string) (weight height bmi : value)
    (category timestamp : string) (w w' : world) :
  save_to_database username weight height bmi category timestamp w
    = (Return true, w') ->
  table w <> None.
Proof.
  unfold save_to_database, except_sqlite3.
  destruct (save_to_database_body_cases username weight height bmi category
              timestamp w)
    as (r & w1 & -> & [[[se ->] _] | (p & _ & Hsome & _)]);
    [discriminate | intros _; exact Hsome].
Qed.

(** A save never raises. *)
Lemma save_to_database_returns (username : string) (weight height bmi : value)
    (category timestamp : string) (w : world) :
  exists success w',
    save_to_database username weight height bmi category timestamp w
      = (Return success, w').
Proof.
  unfold save_to_database, except_sqlite3.
  destruct (save_to_database_body_cases username weight height bmi category
              timestamp w)
    as (r & w' & -> & [[[se ->] _] | (p & [-> | [se ->]] & _)]); eauto.
Qed.

(** X1. [save_to_database] returns [True] exactly when the table exists, the
    weight, the height and the bmi are values its REAL NOT NULL columns take,
    and none of its four calls into the driver fails; in every other case it
    returns [False]. *)
Theorem save_to_database_true_iff (username : string) (weight height bmi : value)
    (category timestamp : string) (w : world) :
  (fst (save_to_database username weight height bmi category timestamp w)
     = Return true <->
   quiet 4 w = true /\ table w <> None /\
   storable weight /\ storable height /\ storable bmi) /\
  (fst (save_to_database username weight height bmi category timestamp w)
     = Return true \/
   fst (save_to_database username weight height bmi category timestamp w)
     = Return false).
Proof.
  unfold storable, save_to_database, except_sqlite3, save_to_database_body,
    Sqlite3.connect, Sqlite3.close, Sqlite3.commit_insert, Sqlite3.commit,
    Sqlite3.execute_insert, db_bind, db_ret, Sqlite3.driver_call, quiet.
  remember (Sqlite3.real_column weight) as cw.
  remember (Sqlite3.real_column height) as ch.
  remember (Sqlite3.real_column bmi) as cb.
  destruct w as [t f]. destruct_faults f; destruct t as [rows | ];
    destruct cw, ch, cb; simpl;
    (split; [split; [intros H; try discriminate H; repeat split; congruence
                    | intros (H1 & H2 & H3 & H4 & H5);
                      try discriminate H1; try congruence]
            | auto]).
Qed.

(** X2. When the table is missing, or one of the three numbers is not
    storable (a NaN, [None]), [save_to_database] returns [False] and stores
    nothing, whatever the driver does. *)
Theorem save_to_database_rejected (username : string) (weight height bmi : value)
    (category timestamp : string) (w : world) :
  table w = None \/ ~ storable weight \/ ~ storable height \/ ~ storable bmi ->
  exists w',
    save_to_database username weight height bmi category timestamp w
      = (Return false, w') /\
    table w' = table w.
Proof.
  unfold storable, save_to_database, except_sqlite3, save_to_database_body,
    Sqlite3.connect, Sqlite3.close, Sqlite3.commit_insert, Sqlite3.commit,
    Sqlite3.execute_insert, db_bind, db_ret, Sqlite3.driver_call.
  remember (Sqlite3.real_column weight) as cw.
  remember (Sqlite3.real_column height) as ch.
  remember (Sqlite3.real_column bmi) as cb.
  destruct w as [t f]. intros H.
  assert (t = None \/ cw = None \/ ch = None \/ cb = None) as H'.
  { simpl in H. destruct H as [H | [H | [H | H]]]; auto;
      [destruct cw | destruct ch | destruct cb]; auto; exfalso; apply H; discriminate. }
  clear H. destruct_faults f; destruct t as [rows | ];
    destruct cw, ch, cb; simpl;
    try (eexists; split; reflexivity);
    destruct H' as [H | [H | [H | H]]]; discriminate H.
Qed.

(** X3. The report need not match the table: when the commit went through and
    only [conn.close()] fails, [save_to_database] returns [False] although
    the record is stored. *)
Theorem save_to_database_close_fails (username : string) (weight height bmi : value)
    (category timestamp : string) (w : world) (rows : list row) :
  table w = Some rows -> quiet 3 w = true -> quiet 4 w = false ->
  storable weight -> storable height -> storable bmi ->
  exists pending w',
    save_to_database username weight height bmi category timestamp w
      = (Return false, w') /\
    table w' = Some (rows ++ [pending]) /\
    row_username pending = username /\
    row_timestamp pending = timestamp.
Proof.
  unfold storable, save_to_database, except_sqlite3, save_to_database_body,
    Sqlite3.connect, Sqlite3.close, Sqlite3.commit_insert, Sqlite3.commit,
    Sqlite3.execute_insert, db_bind, db_ret, Sqlite3.driver_call, quiet.
  remember (Sqlite3.real_column weight) as cw.
  remember (Sqlite3.real_column height) as ch.
  remember (Sqlite3.real_column bmi) as cb.
  destruct w as [t f]. simpl. intros -> Hq3 Hq4 Hw Hh Hb.
  destruct cw as [wv | ]; [ | congruence].
  destruct ch as [hv | ]; [ | congruence].
  destruct cb as [bv | ]; [ | congruence].
  destruct_faults f; simpl in *; try discriminate;
    eexists _, _; repeat split; reflexivity.
Qed.

End StoreWorlds.

(** ** Users, histories and the rows of the calculator tab *)

Module TableFacts.

Lemma existsb_eqb_In (n : string) (seen : list string) :
  existsb (String.eqb n) seen = true <-> In n seen.
Proof.
  rewrite existsb_exists. split.
  - intros (x & Hx & Heq). apply String.eqb_eq in Heq. subst. exact Hx.
  - intros H. exists n. split; [exact H | apply String.eqb_refl].
Qed.

Lemma distinct_In (names seen : list string) (x : string) :
  In x (Sqlite3.distinct seen names) <-> In x names /\ ~ In x seen.
Proof.
  revert seen. induction names as [ | n names IH]; intros seen; simpl.
  - tauto.
  - destruct (existsb (String.eqb n) seen) eqn:E.
    + apply existsb_eqb_In in E. rewrite IH. split.
      * intros [H1 H2]. auto.
      * intros [[-> | H1] H2]; [contradiction | auto].
    + assert (~ In n seen) as Hn
        by (intros H; apply existsb_eqb_In in H; congruence).
      simpl. rewrite IH. simpl. split.
      * intros [<- | [H1 H2]]; [auto | ]. split; [auto | tauto].
      * intros [[-> | H1] H2]; [auto | ].
        destruct (String.eqb_spec n x) as [-> | Hne]; [auto | ].
        right. split; [exact H1 | ]. intros [H | H]; auto.
Qed.

Lemma distinct_NoDup (names seen : list string) :
  NoDup (Sqlite3.distinct seen names).
Proof.
  revert seen. induction names as [ | n names IH]; intros seen; simpl.
  - constructor.
  - destruct (existsb (String.eqb n) seen); [apply IH | ].
    constructor; [ | apply IH].
    rewrite distinct_In. simpl. tauto.
Qed.

Lemma select_history_nil_iff (username : string) (rows : list row) :
  Sqlite3.select_history username rows = [] <->
  forall r, In r rows -> row_username r <> username.
Proof.
  split.
  - intros H r Hin Hu.
    assert (In (record_of_row r) (records_of username rows)) as Hr.
    { unfold records_of. apply in_map, filter_In. split; [exact Hin | ].
      apply String.eqb_eq, Hu. }
    eapply Permutation_in in Hr;
      [ | apply Permutation_sym, OrderFacts.select_history_perm].
    rewrite H in Hr. contradiction.
  - intros H.
    destruct (Sqlite3.select_history username rows) as [ | x l] eqn:E;
      [reflexivity | exfalso].
    assert (In x (records_of username rows)) as Hx.
    { eapply Permutation_in; [apply OrderFacts.select_history_perm | ].
      rewrite E. left. reflexivity. }
    unfold records_of in Hx. apply in_map_iff in Hx.
    destruct Hx as (r & _ & Hr). apply filter_In in Hr.
    destruct Hr as [Hin Hu]. apply String.eqb_eq in Hu. exact (H r Hin Hu).
Qed.

Lemma string_ltb_leb_false (a b : string) :
  String.ltb a b = true -> String.leb b a = false.
Proof.
  unfold String.ltb, String.leb. rewrite (String.compare_antisym a b).
  destruct (String.compare b a); simpl; congruence.
Qed.

(** A row newer than all the others sorts to the front, and the others keep
    their order. *)
Lemma order_by_timestamp_desc_newest (rows : list row) (r : row) :
  (forall x, In x rows -> String.ltb (row_timestamp x) (row_timestamp r) = true) ->
  Sqlite3.order_by_timestamp_desc (rows ++ [r])
    = r :: Sqlite3.order_by_timestamp_desc rows.
Proof.
  unfold Sqlite3.order_by_timestamp_desc.
  induction rows as [ | x rows IH]; intros H; simpl.
  - reflexivity.
  - rewrite IH by (intros y Hy; apply H; right; exact Hy). simpl.
    rewrite (string_ltb_leb_false _ _ (H x (or_introl eq_refl))). reflexivity.
Qed.

End TableFacts.

Section StoreExtras.

Context {rt : Runtime}.

Import DbFacts DriverFacts OrderFacts TableFacts FloatFacts.


Lemma db_bind_keeps_after {A B : Type} (m : db A) (k : A -> db B) (w : world) :
  (forall a, grows 0 (k a)) ->
  stored_rows (snd (db_bind m k w)) = stored_rows (snd (m w)).
Proof.
  intros Hk. unfold db_bind. destruct (m w) as [[a | e] w1]; simpl.
  - apply grows_0_keeps, Hk.
  - reflexivity.
Qed.

Lemma db_bind_lift_return {A B : Type} (a : A) (k : A -> db B) (w : world) :
  db_bind (db_lift (Return a)) k w = k a w.
Proof. reflexivity. Qed.

Lemma db_bind_lift_raise {A B : Type} (e : exn) (k : A -> db B) (w : world) :
  db_bind (db_lift (Raise e)) k w = (Raise e, w).
Proof. reflexivity. Qed.

Lemma stored_rows_table (w w' : world) :
  table w' = table w -> stored_rows w' = stored_rows w.
Proof. unfold stored_rows. intros ->. reflexivity. Qed.

Lemma stored_rows_some (w : world) (rows : list row) :
  table w = Some rows -> stored_rows w = rows.
Proof. unfold stored_rows. intros ->. reflexivity. Qed.

(** What the calculator tab leaves behind: the rows as they were, or one new
    row of that user at the end, numbered past every id in use. *)
Lemma calculate_bmi_gui_world (username weight height timestamp : string) (w : world) :
  stored_rows (snd (calculate_bmi_gui username weight height timestamp w))
    = stored_rows w \/
  exists pending,
    stored_rows (snd (calculate_bmi_gui username weight height timestamp w))
      = stored_rows w ++ [pending] /\
    row_username pending = username /\
    row_id pending = Sqlite3.next_id (stored_rows w) /\
    numeric (row_weight pending).
Proof.
  unfold calculate_bmi_gui.
  destruct (username =? "")%string; [left; reflexivity | ].
  destruct (validate_input (PyStr weight) (PyStr height)) as [[[] message] | e]
    eqn:Hval; [ | left; reflexivity ..].
  rewrite db_bind_lift_return.
  destruct (calculate_bmi (PyStr weight) (PyStr height)) as [bmi | e];
    [ | left; reflexivity].
  rewrite db_bind_lift_return.
  destruct bmi as [ | s | f]; [left; reflexivity .. | ].
  simpl classify_bmi. rewrite db_bind_lift_return.
  rewrite db_bind_keeps_after.
  2: { intros success.
       apply (grows_bind 0 0); [apply grows_get_all_users | intros _].
       apply (grows_bind 0 0); [apply grows_get_all_users | intros _].
       apply grows_ret. }
  destruct (save_to_database_world username (PyStr weight) (PyStr height)
              (PyFloat f) (category_name (classify_float f)) timestamp w _ eq_refl)
    as [Ht | (p & Ht & Hu & Hid & Hcol & _)].
  - left. apply stored_rows_table, Ht.
  - right. exists p. rewrite (stored_rows_some _ _ Ht).
    repeat split; try assumption.
    apply validate_input_ok_inv in Hval.
    destruct Hval as (wf & hf & Hwf & _). simpl in Hwf, Hcol. unfold numeric.
    destruct (sqlite_real_of_text weight) as [x | ]; injection Hcol as <-;
      simpl; eauto.
Qed.

Lemma app_one_not_self {A : Type} (l : list A) (x : A) : l <> l ++ [x].
Proof.
  intros H. apply (f_equal (@length A)) in H. rewrite length_app in H.
  simpl in H. lia.
Qed.

(** A quotient that is a number after rounding came from numbers. *)
Lemma rounded_quotient_not_nan (w h2 : float) :
  is_nan (py_round (w / h2) 2) = false ->
  is_nan w = false /\ is_nan h2 = false.
Proof.
  intros H. split.
  - destruct (is_nan w) eqn:E; [ | reflexivity].
    rewrite (py_round_nan _ 2 (div_nan_l w h2 E)) in H.
    rewrite (div_nan_l w h2 E) in H. discriminate.
  - destruct (is_nan h2) eqn:E; [ | reflexivity].
    rewrite (py_round_nan _ 2 (div_nan_r w h2 E)) in H.
    rewrite (div_nan_r w h2 E) in H. discriminate.
Qed.

(** The square of NaN is NaN. *)
Lemma float_pow_2_not_nan (h h2 : float) :
  float_pow_2 h = Return h2 -> is_nan h2 = false -> is_nan h = false.
Proof.
  unfold float_pow_2. destruct (is_nan h) eqn:E; [ | reflexivity].
  intros [= <-]. rewrite E. discriminate.
Qed.

(** C2, as the code has it.  Every row that [calculate_bmi_gui] appends to
    the table, whether or not the save reports success, was made from a weight
    text and a height text that [float] reads as numbers above zero; its
    weight and height are those texts as a REAL column returns them; its bmi
    is the weight divided by [float(height) ** 2], rounded to two decimals (a
    zero read back as 0.0); its category is [classify_bmi] of that rounded
    value; its username and timestamp are the ones given. *)
Theorem created_record_invariant (username weight height timestamp : string)
    (w : world) (r : row) :
  stored_rows (snd (calculate_bmi_gui username weight height timestamp w))
    = stored_rows w ++ [r] ->
  exists wf hf h2 bmi : float,
    float_of_str weight = Some wf /\ float_of_str height = Some hf /\
    (0 <? wf)%float = true /\ (0 <? hf)%float = true /\
    float_pow_2 hf = Return h2 /\
    bmi = py_round (wf / h2) 2 /\
    Sqlite3.real_column (PyStr weight) = Some (row_weight r) /\
    Sqlite3.real_column (PyStr height) = Some (row_height r) /\
    row_bmi r = PyFloat (if (bmi =? 0)%float then 0%float else bmi) /\
    row_category r = category_name (classify_float bmi) /\
    row_username r = username /\
    row_timestamp r = timestamp.
Proof.
  unfold calculate_bmi_gui.
  destruct (username =? "")%string;
    [intros H; destruct (app_one_not_self _ _ H) | ].
  destruct (validate_input (PyStr weight) (PyStr height)) as [[[] message] | e]
    eqn:Hval; try (intros H; destruct (app_one_not_self _ _ H)).
  rewrite db_bind_lift_return.
  apply validate_input_ok_inv in Hval.
  destruct Hval as (wf & hf & Hwf & Hhf & Hw0 & Hh0 & _ & Hh1).
  destruct (calculate_bmi_of_validated _ _ wf hf Hwf Hhf Hh0 Hh1)
    as (h2 & Hpow & ->).
  destruct (h2 =? 0)%float;
    [intros H; destruct (app_one_not_self _ _ H) | ].
  rewrite db_bind_lift_return. simpl classify_bmi. rewrite db_bind_lift_return.
  rewrite db_bind_keeps_after.
  2: { intros success.
       apply (grows_bind 0 0); [apply grows_get_all_users | intros _].
       apply (grows_bind 0 0); [apply grows_get_all_users | intros _].
       apply grows_ret. }
  destruct (save_to_database_world username (PyStr weight) (PyStr height)
              (PyFloat (py_round (wf / h2) 2))
              (category_name (classify_float (py_round (wf / h2) 2)))
              timestamp w _ eq_refl)
    as [Ht | (p & Ht & Hu & _ & Hcw & Hch & Hcb & Hcat & Hts & _)].
  - rewrite (stored_rows_table _ _ Ht). intros H.
    destruct (app_one_not_self _ _ H).
  - rewrite (stored_rows_some _ _ Ht). intros H.
    apply app_inv_head in H. injection H as <-.
    assert (is_nan (py_round (wf / h2) 2) = false) as Hnan.
    { simpl in Hcb. destruct (is_nan (py_round (wf / h2) 2));
        [discriminate | reflexivity]. }
    destruct (rounded_quotient_not_nan _ _ Hnan) as [Hnw Hn2].
    pose proof (float_pow_2_not_nan _ _ Hpow Hn2) as Hnh.
    simpl in Hwf, Hhf.
    destruct (float_of_str weight) as [wf' | ] eqn:Ew; [ | discriminate].
    destruct (float_of_str height) as [hf' | ] eqn:Eh; [ | discriminate].
    injection Hwf as ->. injection Hhf as ->.
    exists wf, hf, h2, (py_round (wf / h2) 2).
    repeat split; try assumption; try reflexivity.
    + apply leb_false_ltb; [assumption .. | reflexivity].
    + apply leb_false_ltb; [assumption .. | reflexivity].
    + apply real_column_float, Hcb.
Qed.

(** A read of the user list that meets no fault returns what the query
    selects. *)
Lemma get_all_users_quiet (w : world) (rows : list row) :
  table w = Some rows -> quiet 4 w = true ->
  exists w',
    get_all_users w = (Return (Sqlite3.select_distinct_username rows), w') /\
    table w' = table w.
Proof.
  intros Ht Hq.
  destruct (driver_call_quiet 3 w Hq) as (w1 & H1 & Ht1 & Hq1).
  destruct (driver_call_quiet 2 w1 Hq1) as (w2 & H2 & Ht2 & Hq2).
  destruct (driver_call_quiet 1 w2 Hq2) as (w3 & H3 & Ht3 & Hq3).
  destruct (driver_call_quiet 0 w3 Hq3) as (w4 & H4 & Ht4 & _).
  exists w4. split; [ | congruence].
  apply except_sqlite3_return. unfold get_all_users_body.
  unfold Sqlite3.connect, Sqlite3.close, Sqlite3.execute_select, Sqlite3.fetchall.
  rewrite (db_bind_step _ _ w w1 tt H1).
  rewrite (db_bind_step _ _ w1 w2 (Sqlite3.select_distinct_username rows)).
  2: { rewrite (db_bind_step _ _ w1 w2 tt H2). rewrite Ht2, Ht1, Ht. reflexivity. }
  rewrite (db_bind_step _ _ w2 w3 (Sqlite3.select_distinct_username rows)).
  2: { rewrite (db_bind_step _ _ w2 w3 tt H3). reflexivity. }
  rewrite (db_bind_step _ _ w3 w4 tt H4). reflexivity.
Qed.

Lemma select_distinct_username_In (rows : list row) (username : string) :
  In username (Sqlite3.select_distinct_username rows) <->
  exists r, In r rows /\ row_username r = username.
Proof.
  unfold Sqlite3.select_distinct_username. rewrite distinct_In, in_map_iff.
  split.
  - intros [(r & Hu & Hin) _]. exists r. auto.
  - intros (r & Hin & Hu). split; [exists r; auto | simpl; tauto].
Qed.

(** X5. A read of the user list that meets no database error returns every
    username that has a stored row, each exactly once, and no other name. *)
Theorem get_all_users_distinct (w : world) (rows : list row) :
  table w = Some rows -> quiet 4 w = true ->
  exists users w',
    get_all_users w = (Return users, w') /\
    NoDup users /\
    (forall username,
       In username users <-> exists r, In r rows /\ row_username r = username).
Proof.
  intros Ht Hq. destruct (get_all_users_quiet w rows Ht Hq) as (w' & H & _).
  exists (Sqlite3.select_distinct_username rows), w'.
  split; [exact H | ]. split; [apply distinct_NoDup | ].
  intros username. apply select_distinct_username_In.
Qed.

(** X6. The user list and the histories agree: a username is listed exactly
    when its history is not empty. *)
Theorem user_listed_iff_history (username : string) (w : world) (rows : list row) :
  table w = Some rows -> quiet 4 w = true ->
  exists users records w1 w2,
    get_all_users w = (Return users, w1) /\
    get_user_history username w = (Return records, w2) /\
    (In username users <-> records <> []).
Proof.
  intros Ht Hq.
  destruct (get_all_users_quiet w rows Ht Hq) as (w1 & H1 & _).
  destruct (get_user_history_quiet username w rows Ht Hq) as (w2 & H2 & _).
  exists (Sqlite3.select_distinct_username rows),
    (Sqlite3.select_history username rows), w1, w2.
  split; [exact H1 | ]. split; [exact H2 | ].
  rewrite select_distinct_username_In. split.
  - intros (r & Hin & Hu) Hnil.
    rewrite select_history_nil_iff in Hnil. exact (Hnil r Hin Hu).
  - intros Hne.
    destruct (Sqlite3.select_history username rows) as [ | x l] eqn:E;
      [congruence | ].
    assert (In x (records_of username rows)) as Hx.
    { eapply Permutation_in; [apply select_history_perm | ].
      rewrite E. left. reflexivity. }
    unfold records_of in Hx. apply in_map_iff in Hx.
    destruct Hx as (r & _ & Hr). apply filter_In in Hr.
    destruct Hr as [Hin Hu]. apply String.eqb_eq in Hu. eauto.
Qed.

(** X7. After a save that reports success, the user is in the user list. *)
Theorem saved_user_is_listed (username : string) (weight height bmi : value)
    (category timestamp : string) (w w1 : world) :
  save_to_database username weight height bmi category timestamp w
    = (Return true, w1) ->
  quiet 4 w1 = true ->
  exists users w2,
    get_all_users w1 = (Return users, w2) /\ In username users.
Proof.
  intros Hsave Hq. apply save_to_database_true in Hsave.
  destruct Hsave as (p & Ht & _ & _ & _ & Hu & _ & _).
  destruct (get_all_users_quiet w1 _ Ht Hq) as (w2 & H & _).
  exists (Sqlite3.select_distinct_username (stored_rows w ++ [p])), w2.
  split; [exact H | ]. apply select_distinct_username_In.
  exists p. split; [apply in_or_app; right; left; reflexivity | exact Hu].
Qed.

(** A read of a database without its table returns the empty list. *)
Lemma get_user_history_no_table (username : string) (w : world) :
  table w = None -> fst (get_user_history username w) = Return [].
Proof.
  destruct w as [t f]. simpl. intros ->. destruct_faults f; reflexivity.
Qed.

Lemma select_history_other_user (username other : string) (rows : list row) (p : row) :
  row_username p = username -> username <> other ->
  Sqlite3.select_history other (rows ++ [p]) = Sqlite3.select_history other rows.
Proof.
  intros Hu Hne. unfold Sqlite3.select_history. rewrite filter_app. simpl.
  rewrite Hu. destruct (String.eqb_spec username other) as [H | _];
    [contradiction | ].
  rewrite app_nil_r. reflexivity.
Qed.

(** A read that meets no fault is a function of the table. *)
Lemma get_user_history_of_table (username : string) (w1 w2 : world) :
  table w1 = table w2 -> quiet 4 w1 = true -> quiet 4 w2 = true ->
  fst (get_user_history username w1) = fst (get_user_history username w2).
Proof.
  intros Ht Hq1 Hq2. destruct (table w2) as [rows | ] eqn:E.
  - destruct (get_user_history_quiet username w1 rows Ht Hq1) as (w3 & -> & _).
    destruct (get_user_history_quiet username w2 rows E Hq2) as (w4 & -> & _).
    reflexivity.
  - rewrite !get_user_history_no_table by congruence. reflexivity.
Qed.

(** X8. Saving a record for one user leaves the history of every other user
    as it was, whatever database errors the save runs into: a read of the
    table the save leaves behind returns for another user what a read of the
    table before the save returns, when neither read meets an error. *)
Theorem history_of_other_user_unchanged (username other : string)
    (weight height bmi : value) (category timestamp : string)
    (w before after : world) :
  username <> other ->
  table before = table w ->
  table after
    = table (snd (save_to_database username weight height bmi category timestamp w)) ->
  quiet 4 before = true -> quiet 4 after = true ->
  fst (get_user_history other after) = fst (get_user_history other before).
Proof.
  intros Hne Hb Ha Hqb Hqa.
  destruct (save_to_database_world username weight height bmi category
              timestamp w _ eq_refl)
    as [Ht | (p & Ht & Hu & _ & _ & _ & _ & _ & _ & Hsome)].
  - apply get_user_history_of_table; [congruence | assumption ..].
  - rewrite Ht in Ha.
    destruct (get_user_history_quiet other after _ Ha Hqa) as (w3 & -> & _).
    simpl. rewrite (select_history_other_user username other _ p Hu Hne).
    assert (table before = Some (stored_rows w)) as Hb'.
    { rewrite Hb. unfold stored_rows.
      destruct (table w); [reflexivity | congruence]. }
    destruct (get_user_history_quiet other before _ Hb' Hqb) as (w2 & -> & _).
    reflexivity.
Qed.

(** C5, as the code has it.  Once a save has stored a record for a user (it
    returned [True], or it failed only in closing the connection), reading
    that user's history returns a record with the timestamp and the category
    that were written, and with the weight, the height and the bmi as their
    REAL columns return them: a float other than zero as written, a zero as
    0.0, a text as the number SQLite reads in it, and as the same text when
    SQLite reads no number in it. *)
Theorem save_then_history_round_trip (username : string)
    (weight height bmi : value) (category timestamp : string) (w after : world) :
  table after
    = table (snd (save_to_database username weight height bmi category timestamp w)) ->
  table after <> table w ->
  quiet 4 after = true ->
  exists records w2 wv hv bv,
    get_user_history username after = (Return records, w2) /\
    In (timestamp, wv, hv, bv, category) records /\
    Sqlite3.real_column weight = Some wv /\
    Sqlite3.real_column height = Some hv /\
    Sqlite3.real_column bmi = Some bv.
Proof.
  intros Ha Hchanged Hq.
  destruct (save_to_database_world username weight height bmi category
              timestamp w _ eq_refl)
    as [Ht | (p & Ht & Hu & _ & Hw & Hh & Hb & Hc & Hts & _)].
  - destruct Hchanged. congruence.
  - rewrite Ht in Ha.
    destruct (get_user_history_quiet username after _ Ha Hq) as (w2 & H & _).
    exists (Sqlite3.select_history username (stored_rows w ++ [p])), w2,
      (row_weight p), (row_height p), (row_bmi p).
    repeat split; try assumption.
    eapply Permutation_in; [apply Permutation_sym, select_history_perm | ].
    unfold records_of. apply in_map_iff. exists p. split.
    + unfold record_of_row. rewrite Hc, Hts. reflexivity.
    + apply filter_In. split.
      * apply in_or_app. right. left. reflexivity.
      * rewrite Hu. apply String.eqb_refl.
Qed.

(** X9. A record stored with a timestamp later than all the earlier ones of
    the user comes first in the history, with the weight, height and bmi as
    their REAL columns return them, and the earlier records follow in the
    order they had.  The save may run into database errors, as long as the
    row reaches the table; the two reads meet none. *)
Theorem newer_record_heads_history (username : string) (weight height bmi : value)
    (category timestamp : string) (w before after : world) :
  table before = table w ->
  table after
    = table (snd (save_to_database username weight height bmi category timestamp w)) ->
  table after <> table before ->
  (forall r, In r (stored_rows w) -> row_username r = username ->
             String.ltb (row_timestamp r) timestamp = true) ->
  quiet 4 before = true -> quiet 4 after = true ->
  exists earlier wv hv bv,
    Sqlite3.real_column weight = Some wv /\
    Sqlite3.real_column height = Some hv /\
    Sqlite3.real_column bmi = Some bv /\
    fst (get_user_history username before) = Return earlier /\
    fst (get_user_history username after)
      = Return ((timestamp, wv, hv, bv, category) :: earlier).
Proof.
  intros Hb Ha Hchanged Hnew Hqb Hqa.
  destruct (save_to_database_world username weight height bmi category
              timestamp w _ eq_refl)
    as [Ht | (p & Ht & Hu & _ & Hw & Hh & Hbmi & Hc & Hts & Hsome)].
  - destruct Hchanged. congruence.
  - rewrite Ht in Ha.
    assert (table before = Some (stored_rows w)) as Hb'.
    { rewrite Hb. unfold stored_rows.
      destruct (table w); [reflexivity | congruence]. }
    destruct (get_user_history_quiet username before _ Hb' Hqb) as (w2 & -> & _).
    destruct (get_user_history_quiet username after _ Ha Hqa) as (w3 & -> & _).
    exists (Sqlite3.select_history username (stored_rows w)),
      (row_weight p), (row_height p), (row_bmi p).
    repeat split; try assumption. simpl. f_equal.
    unfold Sqlite3.select_history. rewrite filter_app. simpl.
    rewrite Hu, String.eqb_refl.
    rewrite order_by_timestamp_desc_newest.
    + simpl. unfold record_of_row. rewrite Hc, Hts. reflexivity.
    + intros x Hx. apply filter_In in Hx. destruct Hx as [Hin Hxu].
      apply String.eqb_eq in Hxu. rewrite Hts. apply Hnew; assumption.
Qed.

(** X10. An initialisation that meets no database error leaves the table in
    place with the rows it had, and creates it empty when it was missing. *)
Theorem init_database_creates_table (w : world) :
  quiet 4 w = true ->
  exists w', init_database w = (Return tt, w') /\ table w' = Some (stored_rows w).
Proof.
  unfold quiet, init_database, except_sqlite3, init_database_body,
    Sqlite3.connect, Sqlite3.close, Sqlite3.commit, Sqlite3.execute_create_table,
    db_bind, db_ret, Sqlite3.driver_call.
  destruct w as [t f]. destruct_faults f; simpl; intros H;
    try discriminate H; eexists; split; reflexivity.
Qed.

(** X20. Every row the calculator tab stores has a weight that [float] reads:
    if that holds of the rows before the handler runs, it holds afterwards.
    These are the rows whose weights the statistics tab converts. *)
Theorem calculator_tab_weights_stay_numeric
    (username weight height timestamp : string) (w : world) :
  (forall r, In r (stored_rows w) -> numeric (row_weight r)) ->
  forall r,
    In r (stored_rows (snd (calculate_bmi_gui username weight height timestamp w))) ->
    numeric (row_weight r).
Proof.
  intros H r.
  destruct (calculate_bmi_gui_world username weight height timestamp w)
    as [-> | (p & -> & _ & _ & Hp)].
  - apply H.
  - intros Hin. apply in_app_or in Hin.
    destruct Hin as [Hin | [<- | []]]; [apply H, Hin | exact Hp].
Qed.

End StoreExtras.

(** ** More on the calculator and its callers *)

Section CallerFacts.

Context {rt : Runtime}.

Import DbFacts FloatFacts.

(** X11. [validate_input] answers "Please enter valid numbers for weight and
    height" exactly when one of the two texts is not a number; it raises
    nothing on text. *)
Theorem validate_input_not_numeric_iff (weight height : string) :
  (validate_input (PyStr weight) (PyStr height)
     = Return (false, "Please enter valid numbers for weight and height"%string) <->
   float_of_str weight = None \/ float_of_str height = None) /\
  (exists verdict, validate_input (PyStr weight) (PyStr height) = Return verdict).
Proof.
  unfold validate_input, validate_input_body, bind, py_float.
  destruct (float_of_str weight) as [w | ], (float_of_str height) as [h | ];
    try (split; [split; [auto | reflexivity] | eauto]).
  destruct ((w <=? 0) || (h <=? 0))%float, (300 <? w)%float, (2.5 <? h)%float;
    (split; [split; [discriminate | intros [H | H]; discriminate H] | eauto]).
Qed.

(** On text [validate_input] raises nothing. *)
Lemma validate_input_text_returns (weight height : string) :
  exists verdict, validate_input (PyStr weight) (PyStr height) = Return verdict.
Proof.
  unfold validate_input, validate_input_body, bind, py_float.
  destruct (float_of_str weight) as [w | ], (float_of_str height) as [h | ];
    eauto.
  destruct ((w <=? 0) || (h <=? 0))%float, (300 <? w)%float, (2.5 <? h)%float;
    eauto.
Qed.

(** After validation the BMI is [None] or a float. *)
Lemma calculate_bmi_after_validation_helper (weight height message : string) :
  validate_input (PyStr weight) (PyStr height) = Return (true, message) ->
  calculate_bmi (PyStr weight) (PyStr height) = Return PyNone \/
  exists f, calculate_bmi (PyStr weight) (PyStr height) = Return (PyFloat f).
Proof.
  intros H. apply validate_input_ok_inv in H.
  destruct H as (w & h & Hw & Hh & _ & Hh0 & _ & Hh1).
  destruct (calculate_bmi_of_validated _ _ w h Hw Hh Hh0 Hh1) as (h2 & _ & ->).
  destruct (h2 =? 0)%float; eauto.
Qed.

Lemma get_all_users_returns (w : world) :
  exists users w', get_all_users w = (Return users, w').
Proof. exact (proj2 (reads_never_raise w)). Qed.

(** X12. The handler of the Calculate button never lets an exception escape:
    for every text in the three fields and every state of the database it
    ends with an error box or with the displayed result. *)
Theorem calculate_bmi_gui_never_raises (username weight height timestamp : string)
    (w : world) :
  exists outcome w',
    calculate_bmi_gui username weight height timestamp w = (Return outcome, w').
Proof.
  unfold calculate_bmi_gui.
  destruct (username =? "")%string; [eexists _, _; reflexivity | ].
  destruct (validate_input (PyStr weight) (PyStr height))
    as [[ok message] | e] eqn:Hval.
  2: { destruct (validate_input_text_returns weight height) as [v Hv]. congruence. }
  rewrite db_bind_lift_return.
  destruct ok; [ | eexists _, _; reflexivity].
  destruct (calculate_bmi_after_validation_helper weight height message Hval)
    as [-> | [f ->]]; rewrite db_bind_lift_return; [eexists _, _; reflexivity | ].
  simpl classify_bmi. rewrite db_bind_lift_return.
  destruct (save_to_database_returns username (PyStr weight) (PyStr height)
              (PyFloat f) (category_name (classify_float f)) timestamp w)
    as (success & w1 & Hs).
  rewrite (db_bind_step _ _ _ _ _ Hs).
  destruct (get_all_users_returns w1) as (u1 & w2 & H1).
  rewrite (db_bind_step _ _ _ _ _ H1).
  destruct (get_all_users_returns w2) as (u2 & w3 & H2).
  rewrite (db_bind_step _ _ _ _ _ H2).
  eexists _, _. reflexivity.
Qed.


(** X13. When the handler of the Calculate button ends with an error box (no
    username, rejected input, no BMI), it has not called the database: the
    world is exactly as before. *)
Theorem calculate_bmi_gui_refusal_touches_nothing
    (username weight height timestamp : string) (w w' : world)
    (outcome : gui_outcome) :
  calculate_bmi_gui username weight height timestamp w = (Return outcome, w') ->
  (outcome = CalculationError \/ exists message, outcome = InputError message) ->
  w' = w.
Proof.
  unfold calculate_bmi_gui.
  destruct (username =? "")%string; [intros [= _ <-]; reflexivity | ].
  destruct (validate_input (PyStr weight) (PyStr height))
    as [[ok message] | e]; [ | discriminate].
  rewrite db_bind_lift_return.
  destruct ok; [ | intros [= _ <-]; reflexivity].
  destruct (calculate_bmi (PyStr weight) (PyStr height)) as [bmi | e];
    [ | discriminate].
  rewrite db_bind_lift_return.
  destruct bmi as [ | s | f]; [intros [= _ <-]; reflexivity | discriminate | ].
  simpl classify_bmi. rewrite db_bind_lift_return. intros H Hout.
  apply db_bind_return in H. destruct H as (success & w1 & _ & H).
  apply db_bind_return in H. destruct H as (u1 & w2 & _ & H).
  apply db_bind_return in H. destruct H as (u2 & w3 & _ & H).
  injection H as <- _.
  destruct Hout as [H | [m H]]; discriminate H.
Qed.

(** *** The command-line mode *)

Lemma init_database_returns (w : world) :
  exists w', init_database w = (Return tt, w').
Proof.
  destruct w as [t f]. destruct_faults f; eexists; reflexivity.
Qed.

Lemma cli_results_world (weight height : float) (w : world) :
  stored_rows (snd (cli_results weight height w)) = stored_rows w.
Proof.
  apply grows_0_keeps. unfold cli_results.
  apply (grows_bind 0 0); [apply grows_init_database | intros _].
  apply (grows_bind 0 0); [apply grows_lift | intros bmi].
  apply (grows_bind 0 0); [apply grows_lift | intros category].
  apply grows_ret.
Qed.

(** What the body of the [try] block yields for two floats. *)
Lemma cli_results_eq (weight height : float) (w : world) :
  cli_results weight height w =
    (match float_pow_2 height with
     | Return h2 =>
         if (h2 =? 0)%float then Raise TypeError
         else
           Return (PrintedResults weight height (PyFloat (py_round (weight / h2) 2))
                     (category_name (classify_float (py_round (weight / h2) 2))))
     | Raise e => Raise e
     end,
     snd (init_database w)).
Proof.
  unfold cli_results.
  destruct (init_database_returns w) as (w1 & Hinit).
  rewrite (db_bind_step _ _ _ _ _ Hinit), Hinit. simpl snd.
  unfold calculate_bmi, calculate_bmi_body, bind, py_float, float_truediv.
  destruct (float_pow_2 height) as [h2 | e] eqn:E.
  - destruct (h2 =? 0)%float; reflexivity.
  - rewrite (float_pow_2_raises _ _ E). reflexivity.
Qed.

(** X14. The command-line mode applies no upper bound: for any two positive
    numbers whose squared height neither overflows nor is zero it prints the
    results block with the BMI rounded to two decimals and its category, and
    after an answer other than [y] it says goodbye.  It has initialised the
    database on the way. *)
Theorem command_line_bmi_prints_results (weight_text height_text answer : string)
    (rest : list string) (weight height h2 : float) (w : world) :
  float_of_str weight_text = Some weight ->
  float_of_str height_text = Some height ->
  (weight <=? 0)%float = false -> (height <=? 0)%float = false ->
  float_pow_2 height = Return h2 -> (h2 =? 0)%float = false ->
  wants_another answer = false ->
  command_line_bmi (weight_text :: height_text :: answer :: rest) w =
    ([PrintedBanner;
      PrintedResults weight height (PyFloat (py_round (weight / h2) 2))
        (category_name (classify_float (py_round (weight / h2) 2)));
      PrintedGoodbye],
     CliFinished, snd (init_database w)).
Proof.
  intros Hw Hh Hw0 Hh0 Hpow Hz Hans.
  unfold command_line_bmi. simpl cli_loop.
  rewrite Hw, Hh, Hw0, Hh0. simpl orb. cbv iota.
  rewrite cli_results_eq, Hpow, Hz, Hans. reflexivity.
Qed.

(** X15. A positive height so small that its square is zero ends the
    command-line mode with an uncaught [TypeError]: [calculate_bmi] returns
    [None] and [classify_bmi] compares it with a number. *)
Theorem command_line_bmi_type_error (weight_text height_text : string)
    (rest : list string) (weight height h2 : float) (w : world) :
  float_of_str weight_text = Some weight ->
  float_of_str height_text = Some height ->
  (weight <=? 0)%float = false -> (height <=? 0)%float = false ->
  float_pow_2 height = Return h2 -> (h2 =? 0)%float = true ->
  command_line_bmi (weight_text :: height_text :: rest) w =
    ([PrintedBanner], CliRaised TypeError, snd (init_database w)).
Proof.
  intros Hw Hh Hw0 Hh0 Hpow Hz.
  unfold command_line_bmi. simpl cli_loop.
  rewrite Hw, Hh, Hw0, Hh0. simpl orb. cbv iota.
  rewrite cli_results_eq, Hpow, Hz. reflexivity.
Qed.

(** X16. [calculate_bmi] catches only [ValueError] and [ZeroDivisionError]:
    for every weight and height that [float] reads, if the square of the height
    overflows, [calculate_bmi] raises [OverflowError].  The command-line mode
    has no handler for it either: given two positive numbers of which the
    height has such a square, it ends with that uncaught [OverflowError]. *)
Theorem command_line_bmi_overflow_error (height : float) :
  float_pow_2 height = Raise OverflowError ->
  (forall (weight_value height_value : value) (weight : float),
     py_float weight_value = Return weight ->
     py_float height_value = Return height ->
     calculate_bmi weight_value height_value = Raise OverflowError) /\
  (forall (weight_text height_text : string) (rest : list string)
          (weight : float) (w : world),
     float_of_str weight_text = Some weight ->
     float_of_str height_text = Some height ->
     (weight <=? 0)%float = false -> (height <=? 0)%float = false ->
     command_line_bmi (weight_text :: height_text :: rest) w =
       ([PrintedBanner], CliRaised OverflowError, snd (init_database w))).
Proof.
  intros Hpow. split.
  - intros weight_value height_value weight Hw Hh.
    unfold calculate_bmi, calculate_bmi_body, bind.
    rewrite Hw, Hh, Hpow. reflexivity.
  - intros weight_text height_text rest weight w Hw Hh Hw0 Hh0.
    unfold command_line_bmi. simpl cli_loop.
    rewrite Hw, Hh, Hw0, Hh0. simpl orb. cbv iota.
    rewrite cli_results_eq, Hpow. reflexivity.
Qed.

Lemma cli_printed_world (lines : list cli_line) (run : cli_run) :
  snd (cli_printed lines run) = snd run.
Proof. destruct run as [[more exit] w]. reflexivity. Qed.

Lemma cli_loop_world (n : nat) :
  forall inputs w, (length inputs <= n)%nat ->
    stored_rows (snd (cli_loop inputs w)) = stored_rows w.
Proof.
  induction n as [ | n IH]; intros inputs w Hlen.
  - destruct inputs; [reflexivity | simpl in Hlen; lia].
  - assert (forall lines rest w',
              (length rest <= n)%nat ->
              stored_rows w' = stored_rows w ->
              stored_rows
                (snd (match rest with
                      | [] => (lines, CliEndOfInput, w')
                      | answer :: rest' =>
                          if wants_another answer
                          then cli_printed lines (cli_loop rest' w')
                          else (lines ++ [PrintedGoodbye], CliFinished, w')
                      end)) = stored_rows w) as Hagain.
    { intros lines rest w' Hrest Hw'. destruct rest as [ | answer rest'].
      - exact Hw'.
      - destruct (wants_another answer); [ | exact Hw'].
        rewrite cli_printed_world, IH by (simpl in Hrest; lia). exact Hw'. }
    destruct inputs as [ | weight_text inputs1]; [reflexivity | ].
    simpl in Hlen. simpl cli_loop.
    destruct (float_of_str weight_text) as [weight | ].
    2: { apply Hagain; [lia | reflexivity]. }
    destruct inputs1 as [ | height_text inputs2]; [reflexivity | ].
    simpl in Hlen.
    destruct (float_of_str height_text) as [height | ].
    2: { apply Hagain; [lia | reflexivity]. }
    destruct ((weight <=? 0) || (height <=? 0))%float.
    { rewrite cli_printed_world. apply IH. lia. }
    pose proof (cli_results_world weight height w) as Hres.
    destruct (cli_results weight height w) as [[results | e] w1]; simpl in Hres.
    + apply Hagain; [lia | exact Hres].
    + destruct e; try exact Hres. apply Hagain; [lia | exact Hres].
Qed.

(** X17. The command-line mode never stores a record: whatever the user
    types and however the run ends, the stored rows are those from before. *)
Theorem command_line_bmi_stores_nothing (inputs : list string) (w : world) :
  stored_rows (snd (command_line_bmi inputs w)) = stored_rows w.
Proof.
  unfold command_line_bmi. rewrite cli_printed_world.
  apply (cli_loop_world (length inputs)). lia.
Qed.

End CallerFacts.

(** ** The statistics tab *)

Module SeriesFacts.

Lemma strongly_sorted_snoc {A : Type} (R : A -> A -> Prop) (l : list A) (x : A) :
  StronglySorted R l -> Forall (fun y => R y x) l -> StronglySorted R (l ++ [x]).
Proof.
  induction 1 as [ | y l Hsorted IH Hall]; intros Hx; simpl.
  - constructor; constructor.
  - inversion Hx as [ | ? ? Hyx Hlx]; subst.
    constructor; [apply IH, Hlx | ].
    apply Forall_app. split; [exact Hall | constructor; [exact Hyx | constructor]].
Qed.

Lemma strongly_sorted_rev {A : Type} (R : A -> A -> Prop) (l : list A) :
  StronglySorted R l -> StronglySorted (fun a b => R b a) (rev l).
Proof.
  induction 1 as [ | x l Hsorted IH Hall]; simpl.
  - constructor.
  - apply strongly_sorted_snoc; [exact IH | ].
    apply Forall_rev. exact Hall.
Qed.

Lemma oldest_first_rev (records : list record) :
  newest_first records -> oldest_first (map record_timestamp (rev records)).
Proof.
  unfold newest_first, oldest_first. intros H.
  apply strongly_sorted_rev in H.
  induction H as [ | x l Hsorted IH Hall]; simpl.
  - constructor.
  - constructor; [exact IH | apply Forall_map; exact Hall].
Qed.

End SeriesFacts.

Section StatisticsFacts.

Context {rt : Runtime}.

Import DbFacts OrderFacts TableFacts SeriesFacts.

(** The series the loop builds: per record, in the order of the records, its
    date, its bmi as stored, and what [float] reads in its weight. *)
Lemma chart_series_return (records : list record) (dates : list string)
    (bmis : list value) (weights : list float) :
  chart_series records = Return (dates, bmis, weights) ->
  dates = map record_timestamp records /\
  bmis = map record_bmi records /\
  Forall2 (fun r weight => py_float (record_weight r) = Return weight)
    records weights.
Proof.
  revert dates bmis weights.
  induction records as [ | [[[[timestamp weight] height] bmi] category] records IH];
    intros dates bmis weights; simpl.
  - intros [= <- <- <-]. auto.
  - unfold bind. destruct (py_float weight) as [wf | e] eqn:Ew; [ | discriminate].
    destruct (chart_series records) as [[[ds bs] ws] | e]; [ | discriminate].
    intros [= <- <- <-]. destruct (IH ds bs ws eq_refl) as (-> & -> & Hw).
    repeat split. constructor; [exact Ew | exact Hw].
Qed.

(** The loop goes through when [float] reads every weight. *)
Lemma chart_series_floats (records : list record) :
  Forall (fun r : record =>
            match r with (_, weight, _, _, _) => numeric weight end) records ->
  exists series, chart_series records = Return series.
Proof.
  induction 1 as [ | [[[[timestamp weight] height] bmi] category] records Hw Hall IH];
    simpl.
  - eauto.
  - destruct Hw as [f Hf]. unfold bind. rewrite Hf.
    destruct IH as ([[ds bs] ws] & ->). eauto.
Qed.

(** X18. For a user whose stored weights [float] reads and who has at least
    one record, the statistics tab draws a chart of the whole history of the
    user in chronological order: the points are the records that
    [get_user_history] returns, taken in reverse; each point has the date of
    its record, its bmi as stored, and the number [float] reads in its weight;
    the dates never decrease; and the records are those of the user in the
    table. *)
Theorem generate_stats_chronological (username : string) (w : world)
    (rows : list row) :
  (username =? "")%string = false ->
  table w = Some rows -> quiet 4 w = true ->
  (forall r, In r rows -> row_username r = username -> numeric (row_weight r)) ->
  (exists r, In r rows /\ row_username r = username) ->
  exists records dates bmis weights w',
    get_user_history username w = (Return records, w') /\
    generate_stats username w = (Return (Chart dates bmis weights), w') /\
    dates = map record_timestamp (rev records) /\
    bmis = map record_bmi (rev records) /\
    Forall2 (fun r weight => py_float (record_weight r) = Return weight)
      (rev records) weights /\
    oldest_first dates /\
    Permutation records (records_of username rows).
Proof.
  intros Hname Ht Hq Hfloat (r0 & Hin0 & Hu0).
  unfold generate_stats. rewrite Hname.
  destruct (get_user_history_quiet username w rows Ht Hq) as (w' & Hhist & _).
  rewrite (db_bind_step _ _ _ _ _ Hhist).
  pose proof (select_history_perm username rows) as Hperm.
  pose proof (select_history_newest_first username rows) as Hsorted.
  destruct (Sqlite3.select_history username rows) as [ | x l] eqn:E.
  { rewrite select_history_nil_iff in E. destruct (E r0 Hin0 Hu0). }
  assert (exists series, chart_series (rev (x :: l)) = Return series)
    as ([[dates bmis] weights] & Hseries).
  { apply chart_series_floats. apply Forall_rev. apply Forall_forall.
    intros rec Hrec. eapply Permutation_in in Hrec; [ | exact Hperm].
    unfold records_of in Hrec. apply in_map_iff in Hrec.
    destruct Hrec as (r & <- & Hr). apply filter_In in Hr.
    destruct Hr as [Hin Hu]. apply String.eqb_eq in Hu.
    exact (Hfloat r Hin Hu). }
  rewrite Hseries, db_bind_lift_return.
  destruct (chart_series_return _ _ _ _ Hseries) as (-> & -> & Hw).
  exists (x :: l), (map record_timestamp (rev (x :: l))),
    (map record_bmi (rev (x :: l))), weights, w'.
  repeat split; try assumption. apply oldest_first_rev, Hsorted.
Qed.

(** A failing read returns the empty list. *)
Lemma get_user_history_read_fails (username : string) (w : world) :
  read_fails w -> exists w', get_user_history username w = (Return [], w').
Proof.
  unfold read_fails, quiet. destruct w as [t f]. simpl.
  destruct t as [rows | ]; destruct_faults f;
    simpl; intros [H | H]; try discriminate H; eexists; reflexivity.
Qed.

(** X19. The statistics tab cannot tell a database error from an empty
    history: when the read fails, and when the user has no record, it shows
    the "No Data" box for the selected user. *)
Theorem generate_stats_no_data (username : string) (w : world) :
  (username =? "")%string = false ->
  read_fails w \/
  (quiet 4 w = true /\ forall r, In r (stored_rows w) -> row_username r <> username) ->
  exists w', generate_stats username w = (Return (NoData username), w').
Proof.
  intros Hname H. unfold generate_stats. rewrite Hname.
  assert (exists w', get_user_history username w = (Return [], w')) as (w' & Hh).
  { destruct H as [H | [Hq Hnone]].
    - apply get_user_history_read_fails, H.
    - destruct (table w) as [rows | ] eqn:E.
      + destruct (get_user_history_quiet username w rows E Hq) as (w' & Hh & _).
        rewrite (stored_rows_some _ _ E) in Hnone.
        apply select_history_nil_iff in Hnone. rewrite Hnone in Hh. eauto.
      + apply get_user_history_read_fails. left. exact E. }
  rewrite (db_bind_step _ _ _ _ _ Hh). eexists. reflexivity.
Qed.

End StatisticsFacts.

(** ** The further properties at concrete inputs *)

Section MoreRuns.

Import Example Scenario.

#[local] Existing Instance AsciiRuntime.runtime.

Local Open Scope string_scope.

(** [save_to_database_rejected] at a BMI that is not a number. *)
Lemma save_to_database_rejected_witness :
  ~ storable (PyFloat nan) /\
  exists w',
    save_to_database "alice" (PyStr "70") (PyStr "1.75") (PyFloat nan) "Obese"
      monday populated = (Return false, w') /\
    table w' = table populated.
Proof.
  assert (~ storable (PyFloat nan)) as H by (intros H; apply H; reflexivity).
  split; [exact H | ].
  apply (save_to_database_rejected "alice" (PyStr "70") (PyStr "1.75")
           (PyFloat nan) "Obese" monday populated).
  right. right. right. exact H.
Defined.

(** [save_to_database_close_fails] at a driver that fails the fourth call. *)
Lemma save_to_database_close_fails_witness :
  quiet 3 closing_fails = true /\ quiet 4 closing_fails = false /\
  exists pending w',
    save_to_database "alice" (PyFloat 72) (PyFloat 1.75) (PyFloat 23.51)
      "Normal weight" wednesday closing_fails = (Return false, w') /\
    table w' = Some (three_rows ++ [pending])%list /\
    row_username pending = "alice" /\
    row_timestamp pending = wednesday.
Proof.
  split; [reflexivity | ]. split; [reflexivity | ].
  apply (save_to_database_close_fails "alice" (PyFloat 72) (PyFloat 1.75)
           (PyFloat 23.51) "Normal weight" wednesday closing_fails three_rows);
    try reflexivity; intros H; vm_compute in H; discriminate H.
Defined.

(** [get_all_users_distinct] at the populated database. *)
Lemma get_all_users_distinct_witness :
  exists users w',
    get_all_users populated = (Return users, w') /\
    NoDup users /\
    (forall username,
       In username users <->
       exists r, In r three_rows /\ row_username r = username).
Proof.
  apply (get_all_users_distinct populated three_rows); reflexivity.
Defined.

(** What that read returns. *)
Example users_of_the_populated_database :
  get_all_users populated = (Return ["alice"; "bob"], populated).
Proof. vm_compute. reflexivity. Qed.

(** [user_listed_iff_history] at a user without records. *)
Lemma user_listed_iff_history_witness :
  exists users records w1 w2,
    get_all_users populated = (Return users, w1) /\
    get_user_history "carol" populated = (Return records, w2) /\
    (In "carol" users <-> records <> []).
Proof.
  apply (user_listed_iff_history "carol" populated three_rows); reflexivity.
Defined.

(** [saved_user_is_listed] at the first record of a new user. *)
Lemma saved_user_is_listed_witness :
  exists users w2,
    get_all_users
      (snd (save_to_database "carol" (PyFloat 60) (PyFloat 1.6) (PyFloat 23.44)
              "Normal weight" wednesday populated))
      = (Return users, w2) /\
    In "carol" users.
Proof.
  apply (saved_user_is_listed "carol" (PyFloat 60) (PyFloat 1.6) (PyFloat 23.44)
           "Normal weight" wednesday populated); vm_compute; reflexivity.
Defined.

(** [save_then_history_round_trip] at the record the calculator tab writes
    for weight 70 and height 1.75. *)
Lemma save_then_history_round_trip_witness :
  exists records w2 wv hv bv,
    get_user_history "alice"
      (snd (save_to_database "alice" (PyStr "70") (PyStr "1.75") (PyFloat 22.86)
              "Normal weight" monday fresh))
      = (Return records, w2) /\
    In (monday, wv, hv, bv, "Normal weight") records /\
    Sqlite3.real_column (PyStr "70") = Some wv /\
    Sqlite3.real_column (PyStr "1.75") = Some hv /\
    Sqlite3.real_column (PyFloat 22.86) = Some bv.
Proof.
  apply (save_then_history_round_trip "alice" (PyStr "70") (PyStr "1.75")
           (PyFloat 22.86) "Normal weight" monday fresh).
  - reflexivity.
  - vm_compute. intros H. discriminate H.
  - reflexivity.
Defined.

(** [history_of_other_user_unchanged] at a save for another user whose
    connection fails to close: the save reports failure, the row is stored. *)
Lemma history_of_other_user_unchanged_witness :
  fst (save_to_database "carol" (PyStr "60") (PyStr "1.5") (PyFloat 26.67)
         "Overweight" wednesday closing_fails) = Return false /\
  fst (get_user_history "alice"
         {| table :=
              table (snd (save_to_database "carol" (PyStr "60") (PyStr "1.5")
                            (PyFloat 26.67) "Overweight" wednesday
                            closing_fails));
            faults := [] |})
    = fst (get_user_history "alice" populated).
Proof.
  split; [vm_compute; reflexivity | ].
  apply (history_of_other_user_unchanged "carol" "alice" (PyStr "60") (PyStr "1.5")
           (PyFloat 26.67) "Overweight" wednesday closing_fails populated);
    [intros H; discriminate H | reflexivity ..].
Defined.

(** [newer_record_heads_history] at a third record of a user, written as the
    calculator tab writes it. *)
Lemma newer_record_heads_history_witness :
  exists earlier wv hv bv,
    Sqlite3.real_column (PyStr "72") = Some wv /\
    Sqlite3.real_column (PyStr "1.75") = Some hv /\
    Sqlite3.real_column (PyFloat 23.51) = Some bv /\
    fst (get_user_history "alice" populated) = Return earlier /\
    fst (get_user_history "alice"
           {| table :=
                table (snd (save_to_database "alice" (PyStr "72") (PyStr "1.75")
                              (PyFloat 23.51) "Normal weight" wednesday
                              closing_fails));
              faults := [] |})
      = Return ((wednesday, wv, hv, bv, "Normal weight") :: earlier).
Proof.
  apply (newer_record_heads_history "alice" (PyStr "72") (PyStr "1.75")
           (PyFloat 23.51) "Normal weight" wednesday closing_fails populated).
  - reflexivity.
  - reflexivity.
  - vm_compute. intros H. discriminate H.
  - intros r [<- | [<- | [<- | []]]] _; reflexivity.
  - reflexivity.
  - reflexivity.
Defined.

(** What the history then is: the third record first, its weight and height
    as numbers. *)
Example history_after_a_third_record :
  fst (get_user_history "alice"
         {| table :=
              table (snd (save_to_database "alice" (PyStr "72") (PyStr "1.75")
                            (PyFloat 23.51) "Normal weight" wednesday
                            closing_fails));
            faults := [] |})
    = Return [ (wednesday, PyFloat 72, PyFloat 1.75, PyFloat 23.51, "Normal weight");
               (tuesday, PyFloat 71, PyFloat 1.75, PyFloat 23.18, "Normal weight");
               (monday, PyFloat 70, PyFloat 1.75, PyFloat 22.86, "Normal weight") ].
Proof. vm_compute. reflexivity. Qed.

(** [init_database_creates_table] at a database without its table. *)
Lemma init_database_creates_table_witness :
  quiet 4 broken = true /\
  exists w', init_database broken = (Return tt, w') /\
             table w' = Some (stored_rows broken).
Proof.
  split; [reflexivity | ].
  apply (init_database_creates_table broken). reflexivity.
Defined.

(** [calculate_bmi_gui_refusal_touches_nothing] at a weight above the bound,
    with a database that cannot be reached. *)
Lemma calculate_bmi_gui_refusal_touches_nothing_witness :
  calculate_bmi_gui "alice" "500" "1.8" monday unreachable
    = (Return (InputError "Weight seems too high. Please check your input."),
       snd (calculate_bmi_gui "alice" "500" "1.8" monday unreachable)) /\
  snd (calculate_bmi_gui "alice" "500" "1.8" monday unreachable) = unreachable.
Proof.
  split; [vm_compute; reflexivity | ].
  apply (calculate_bmi_gui_refusal_touches_nothing "alice" "500" "1.8" monday
           unreachable _
           (InputError "Weight seems too high. Please check your input.")).
  - vm_compute. reflexivity.
  - right. eexists. reflexivity.
Defined.

(** [command_line_bmi_prints_results] at a weight the calculator tab turns
    down. *)
Lemma command_line_bmi_prints_results_witness :
  wants_another "n" = false /\
  command_line_bmi ["500"; "1.8"; "n"] fresh =
    ([PrintedBanner;
      PrintedResults 500 1.8 (PyFloat (py_round (500 / (1.8 * 1.8)) 2))
        (category_name (classify_float (py_round (500 / (1.8 * 1.8)) 2)));
      PrintedGoodbye],
     CliFinished, snd (init_database fresh)).
Proof.
  split; [reflexivity | ].
  apply (command_line_bmi_prints_results "500" "1.8" "n" [] 500 1.8
           (1.8 * 1.8) fresh); vm_compute; reflexivity.
Defined.

(** What that run prints: a BMI of 154.32, filed as "Obese". *)
Example command_line_takes_any_weight :
  command_line_bmi ["500"; "1.8"; "n"] fresh =
    ([PrintedBanner; PrintedResults 500 1.8 (PyFloat 154.32) "Obese";
      PrintedGoodbye],
     CliFinished, fresh).
Proof. vm_compute. reflexivity. Qed.

(** [command_line_bmi_type_error] at the height 1e-200. *)
Lemma command_line_bmi_type_error_witness :
  command_line_bmi ["70"; "1e-200"; "y"; "70"; "1.75"; "n"] fresh
    = ([PrintedBanner], CliRaised TypeError, snd (init_database fresh)).
Proof.
  apply (command_line_bmi_type_error "70" "1e-200" ["y"; "70"; "1.75"; "n"]
           70 1e-200 0 fresh); vm_compute; reflexivity.
Defined.

(** [command_line_bmi_overflow_error] at the height 1e200. *)
Lemma command_line_bmi_overflow_error_witness :
  float_pow_2 1e200 = Raise OverflowError /\
  calculate_bmi (PyStr "70") (PyStr "1e200") = Raise OverflowError /\
  command_line_bmi ["70"; "1e200"; "n"] fresh
    = ([PrintedBanner], CliRaised OverflowError, snd (init_database fresh)).
Proof.
  assert (float_pow_2 1e200 = Raise OverflowError) as H
    by (vm_compute; reflexivity).
  split; [exact H | ]. split.
  - apply (proj1 (command_line_bmi_overflow_error 1e200 H)
             (PyStr "70") (PyStr "1e200") 70%float); vm_compute; reflexivity.
  - apply (proj2 (command_line_bmi_overflow_error 1e200 H)
             "70" "1e200" ["n"] 70%float fresh); vm_compute; reflexivity.
Defined.

(** [generate_stats_chronological] at the populated database. *)
Lemma generate_stats_chronological_witness :
  exists records dates bmis weights w',
    get_user_history "alice" populated = (Return records, w') /\
    generate_stats "alice" populated = (Return (Chart dates bmis weights), w') /\
    dates = map record_timestamp (rev records) /\
    bmis = map record_bmi (rev records) /\
    Forall2 (fun r weight => py_float (record_weight r) = Return weight)
      (rev records) weights /\
    oldest_first dates /\
    Permutation records (records_of "alice" three_rows).
Proof.
  apply (generate_stats_chronological "alice" populated three_rows);
    try reflexivity.
  - intros r [<- | [<- | [<- | []]]] _; eexists; reflexivity.
  - eexists. split; [left; reflexivity | reflexivity].
Defined.

(** What the chart of that user shows. *)
Example chart_of_alice :
  generate_stats "alice" populated
    = (Return (Chart [monday; tuesday] [PyFloat 22.86; PyFloat 23.18] [70; 71]%float),
       populated).
Proof. vm_compute. reflexivity. Qed.

(** [generate_stats_no_data] at a database that cannot be reached. *)
Lemma generate_stats_no_data_witness :
  read_fails unreachable /\
  exists w', generate_stats "alice" unreachable = (Return (NoData "alice"), w').
Proof.
  assert (read_fails unreachable) as H by (right; reflexivity).
  split; [exact H | ].
  apply (generate_stats_no_data "alice" unreachable); [reflexivity | ].
  left. exact H.
Defined.

(** [calculator_tab_weights_stay_numeric] at a weight SQLite keeps as text,
    added to the populated database. *)
Lemma calculator_tab_weights_stay_numeric_witness :
  (forall r, In r (stored_rows populated) -> numeric (row_weight r)) /\
  (forall r,
     In r (stored_rows
             (snd (calculate_bmi_gui "alice" "7_0" "1.75" wednesday populated))) ->
     numeric (row_weight r)).
Proof.
  assert (forall r, In r (stored_rows populated) -> numeric (row_weight r)) as H
    by (intros r [<- | [<- | [<- | []]]]; eexists; reflexivity).
  split; [exact H | ].
  apply (calculator_tab_weights_stay_numeric "alice" "7_0" "1.75" wednesday
           populated H).
Defined.

(** [created_record_invariant] at a record whose save reports failure: the
    connection fails to close after the commit. *)
Lemma created_record_invariant_witness :
  calculate_bmi_gui "alice" "72" "1.75" wednesday closing_fails
    = (Return (Displayed "alice" "72" "1.75" (PyFloat 23.51) "Normal weight" false),
       snd (calculate_bmi_gui "alice" "72" "1.75" wednesday closing_fails)) /\
  exists wf hf h2 bmi : float,
    float_of_str "72" = Some wf /\ float_of_str "1.75" = Some hf /\
    (0 <? wf)%float = true /\ (0 <? hf)%float = true /\
    float_pow_2 hf = Return h2 /\
    bmi = py_round (wf / h2) 2 /\
    Sqlite3.real_column (PyStr "72") = Some (PyFloat 72) /\
    Sqlite3.real_column (PyStr "1.75") = Some (PyFloat 1.75) /\
    PyFloat 23.51 = PyFloat (if (bmi =? 0)%float then 0%float else bmi) /\
    "Normal weight" = category_name (classify_float bmi) /\
    "alice" = "alice" /\
    wednesday = wednesday.
Proof.
  split; [vm_compute; reflexivity | ].
  apply (created_record_invariant "alice" "72" "1.75" wednesday closing_fails
           {| row_id := 4; row_username := "alice"; row_weight := PyFloat 72;
              row_height := PyFloat 1.75; row_bmi := PyFloat 23.51;
              row_category := "Normal weight"; row_timestamp := wednesday |}).
  vm_compute. reflexivity.
Defined.

(** C2 fails as stated.  The record created for weight 70 and height 1.75
    holds the bmi 22.86, which is not 70 / 1.75 ** 2; and the record created
    for the weight typed as [7_0] holds that text as its weight, where no
    comparison with zero applies: the number above zero is the one [float]
    reads in it. *)
Lemma created_record_bmi_is_not_the_quotient :
  (exists r,
     stored_rows (snd (calculate_bmi_gui "alice" "70" "1.75" monday fresh)) = [r] /\
     row_weight r = PyFloat 70 /\ row_height r = PyFloat 1.75 /\
     row_bmi r = PyFloat 22.86 /\
     float_pow_2 1.75 = Return 3.0625%float /\
     (22.86 =? 70 / 3.0625)%float = false) /\
  (exists r,
     stored_rows (snd (calculate_bmi_gui "alice" "7_0" "1.75" monday fresh)) = [r] /\
     row_weight r = PyStr "7_0" /\
     py_float (row_weight r) = Return 70%float).
Proof.
  split; eexists; repeat split; vm_compute; reflexivity.
Qed.

(** The weight typed as [7_0] is stored as that text, and reads as 70. *)
Example grouped_digits_in_the_calculator_tab :
  exists r,
    stored_rows (snd (calculate_bmi_gui "alice" "7_0" "1.75" monday fresh)) = [r] /\
    row_weight r = PyStr "7_0" /\
    py_float (row_weight r) = Return 70%float /\
    row_bmi r = PyFloat 22.86.
Proof. eexists. repeat split; vm_compute; reflexivity. Qed.

End MoreRuns.
